(** * Modbus RTU master engine (STM32/modBusRTU.c): model and properties

    A shallow embedding of [modBusRTU.c] / [modBusRTU.h].

    - [uint8_t] values are [Byte.byte]; [uint16_t] and [size_t] values are
      unsigned integers in [N] whose wrap-around is written out
      ([to_uint16], [to_size_t]).
    - The two static packets [txPacket] and [rxPacket], the UART and the
      timer form an explicit machine state that every API function threads
      through; the handle [ModbusRTU_HandleT] and the caller's buffers are
      passed in and handed back.
    - A read or write outside the object a pointer designates has no defined
      result in C; the model returns [None] there. *)

From Stdlib Require Import Arith NArith List Lia Bool.
From Stdlib Require Import Strings.Byte.
Import ListNotations.

Local Open Scope N_scope.

(** ** Machine integers *)

Abbreviation uint8_t := byte (only parsing).

(** Integer promotion of a [uint8_t]. *)
Definition u8 (b : uint8_t) : N := Byte.to_N b.

(** Conversion to [uint8_t] keeps the low eight bits. *)
Definition to_uint8 (n : N) : uint8_t :=
  match Byte.of_N (n mod 256) with
  | Some b => b
  | None => x00
  end.

(** Conversion to [uint16_t]. *)
Definition to_uint16 (n : N) : N := n mod 65536.

(** Conversion to [size_t], 32 bits wide on the STM32F1. *)
Definition to_size_t (n : N) : N := n mod 4294967296.

(** ** Objects in memory *)

Notation "x <- c ;; k" :=
  (match c with Some x => k | None => None end)
  (at level 61, c at next level, right associativity).

(** [a[i]] as an rvalue. *)
Definition load (a : list uint8_t) (i : N) : option uint8_t :=
  nth_error a (N.to_nat i).

(** [a[i] = v]. *)
Definition store (a : list uint8_t) (i : N) (v : uint8_t)
  : option (list uint8_t) :=
  if i <? N.of_nat (length a)
  then Some (firstn (N.to_nat i) a ++ v :: skipn (S (N.to_nat i)) a)
  else None.

(** [memcpy(dst, src, n)]: the new contents of the object at [dst]. *)
Definition memcpy (dst src : list uint8_t) (n : N) : option (list uint8_t) :=
  if (n <=? N.of_nat (length dst)) && (n <=? N.of_nat (length src))
  then Some (firstn (N.to_nat n) src ++ skipn (N.to_nat n) dst)
  else None.

(** The [n] bytes a callee reads from the start of an object. *)
Definition read_bytes (obj : list uint8_t) (n : N) : option (list uint8_t) :=
  if n <=? N.of_nat (length obj) then Some (firstn (N.to_nat n) obj) else None.

(** ** modBusRTU.h *)

Definition MODBUS_RTU_MAX_DATA_SIZE : N := 250.
Definition MODBUS_RTU_MAX_FRAME_SIZE : N := 256.
(** [-1] as the [uint32_t] argument of [HAL_UART_Transmit]. *)
Definition MODBUS_RTU_TRANSMIT_TIMEOUT : N := 4294967295.
Definition MODBUS_RTU_RECEIVED_TIMEOUT : N := 100.

Inductive ModbusRTU_ErrorT : Set :=
| MODBUS_RTU_SUCCESS
| MODBUS_RTU_ERROR_CRC
| MODBUS_RTU_ERROR_RX_TIMEOUT
| MODBUS_RTU_ERROR_TX_FAILED
| MODBUS_RTU_ERROR_INVALID_SLAVE_ID
| MODBUS_RTU_ERROR_INVALID_FRAME
| MODBUS_RTU_RX_BUSY.

(** Status word of the HAL calls. *)
Inductive HAL_StatusTypeDef : Set := HAL_OK | HAL_ERROR | HAL_BUSY | HAL_TIMEOUT.

Definition HAL_StatusTypeDef_eqb (a b : HAL_StatusTypeDef) : bool :=
  match a, b with
  | HAL_OK, HAL_OK | HAL_ERROR, HAL_ERROR
  | HAL_BUSY, HAL_BUSY | HAL_TIMEOUT, HAL_TIMEOUT => true
  | _, _ => false
  end.

(** [ModbusRTU_HandleT]; the [huart] and [htim] members point at the
    peripherals held in [Machine] below. *)
Record ModbusRTU_HandleT : Set := mkHandle {
  slaveId : uint8_t;
  isRxDataReceived : bool
}.

(** ** modBusRTU.c: the packet type and the static variables *)

Module Packet.

(** [modBusPacket_t]: three members of byte type, laid out without
    padding; [data] has [MODBUS_RTU_MAX_DATA_SIZE + 2] elements. *)
Record t : Set := mk {
  slaveId : uint8_t;
  functionCode : uint8_t;
  data : list uint8_t
}.

Definition data_size : N := MODBUS_RTU_MAX_DATA_SIZE + 2.

Definition wf (p : t) : Prop := length (data p) = N.to_nat data_size.

(** [= { 0 }] *)
Definition zero : t := mk x00 x00 (repeat x00 (N.to_nat data_size)).

(** The object seen through a [uint8_t] pointer to the packet. *)
Definition bytes (p : t) : list uint8_t :=
  slaveId p :: functionCode p :: data p.

Definition set_slaveId (p : t) (v : uint8_t) : t :=
  mk v (functionCode p) (data p).
Definition set_functionCode (p : t) (v : uint8_t) : t :=
  mk (slaveId p) v (data p).
Definition set_data (p : t) (d : list uint8_t) : t :=
  mk (slaveId p) (functionCode p) d.

(** The packet whose object representation starts with [bs]: what a
    callee leaves that writes [bs] through a [uint8_t] pointer to the packet. *)
Definition write_bytes (p : t) (bs : list uint8_t) : option t :=
  match bs with
  | [] => Some p
  | [s] => Some (set_slaveId p s)
  | s :: f :: d =>
      if Nat.leb (length d) (length (data p))
      then Some (mk s f (d ++ skipn (length d) (data p)))
      else None
  end.

End Packet.

(** The file-scope variables of [modBusRTU.c] together with the peripherals
    behind [huart] and [htim]. *)
Record Machine : Set := mkMachine {
  txPacket : Packet.t;
  rxPacket : Packet.t;
  (** frames handed to [HAL_UART_Transmit], the latest first *)
  uart_sent : list (list uint8_t);
  (** byte count of the reception armed by [HAL_UART_Receive_IT] *)
  uart_armed : option N;
  (** [HAL_TIM_Base_Start_IT] was called on [htim] *)
  tim_started : bool;
  (** time units counted by [htim] since it was started *)
  tim_elapsed : N
}.

Definition power_on : Machine :=
  mkMachine Packet.zero Packet.zero [] None false 0.

Definition set_txPacket (m : Machine) (p : Packet.t) : Machine :=
  mkMachine p (rxPacket m) (uart_sent m) (uart_armed m)
            (tim_started m) (tim_elapsed m).

Definition wf_machine (m : Machine) : Prop :=
  Packet.wf (txPacket m) /\ Packet.wf (rxPacket m).

(** ** The peripherals, as far as the engine observes them *)

(** [HAL_UART_Transmit(huart, pData, Size, Timeout)]: the bytes handed
    over are recorded; the status is the one the HAL reports ([hal]). *)
Definition HAL_UART_Transmit (hal : HAL_StatusTypeDef) (m : Machine)
    (pData : list uint8_t) (Size : N) (Timeout : N)
  : option (HAL_StatusTypeDef * Machine) :=
  frame <- read_bytes pData Size ;;
  Some (hal, mkMachine (txPacket m) (rxPacket m) (frame :: uart_sent m)
                       (uart_armed m) (tim_started m) (tim_elapsed m)).

(** [HAL_UART_Receive_IT(huart, &rxPacket, Size)]. *)
Definition HAL_UART_Receive_IT (m : Machine) (Size : N) : Machine :=
  mkMachine (txPacket m) (rxPacket m) (uart_sent m) (Some Size)
            (tim_started m) (tim_elapsed m).

(** [HAL_TIM_Base_Start_IT(htim)]. *)
Definition HAL_TIM_Base_Start_IT (m : Machine) : Machine :=
  mkMachine (txPacket m) (rxPacket m) (uart_sent m) (uart_armed m)
            true (tim_elapsed m).

(** The timer counting [dt] more time units. *)
Definition time_passes (dt : N) (m : Machine) : Machine :=
  mkMachine (txPacket m) (rxPacket m) (uart_sent m) (uart_armed m)
            (tim_started m) (tim_elapsed m + dt).

(** Modelled from the spec: the transport's completion notification, which
    is not part of the sources. The received bytes [frame] lie at the start
    of [rxPacket], the reception is no longer armed, and the "data
    received" flag of the handle is set. *)
Definition rx_complete (frame : list uint8_t) (modbus : ModbusRTU_HandleT)
    (m : Machine) : option (ModbusRTU_HandleT * Machine) :=
  rx <- Packet.write_bytes (rxPacket m) frame ;;
  Some (mkHandle (slaveId modbus) true,
        mkMachine (txPacket m) rx (uart_sent m) None
                  (tim_started m) (tim_elapsed m)).

(** ** CRC-16, as [ModbusRTU_CalculateCRC] computes it *)

(** Body of the inner [for]: one shift of the [uint16_t] accumulator. *)
Definition crc_shift (crc : N) : N :=
  if negb (N.land crc 0x0001 =? 0) then
    let crc := to_uint16 (N.shiftr crc 1) in
    to_uint16 (N.lxor crc 0xA001)
  else
    to_uint16 (N.shiftr crc 1).

(** [for (uint8_t j = 0; j < 8; j++)], by the iterations [8 - j] left. *)
Fixpoint crc_bit_loop (left : nat) (crc : N) : N :=
  match left with
  | O => crc
  | S left' => crc_bit_loop left' (crc_shift crc)
  end.

(** [for (size_t i = 0; i < length; i++)], by the iterations [length - i]
    left; [data[i]] is read from the object [data]. *)
Fixpoint crc_byte_loop (data : list uint8_t) (i : N) (left : nat) (crc : N)
  : option N :=
  match left with
  | O => Some crc
  | S left' =>
      b <- load data i ;;
      let crc := to_uint16 (N.lxor crc (u8 b)) in
      crc_byte_loop data (i + 1) left' (crc_bit_loop 8 crc)
  end.

Definition ModbusRTU_CalculateCRC (data : list uint8_t) (length : N)
  : option N :=
  crc_byte_loop data 0 (N.to_nat length) 0xFFFF.

(** ** The API functions *)

(** Only [huart], [htim] and [slaveId] are assigned: the flag keeps the
    value the caller's structure had. *)
Definition modbusRTUInit (modbus : ModbusRTU_HandleT) (slaveId : uint8_t)
    (m : Machine) : ModbusRTU_HandleT * Machine :=
  (mkHandle slaveId (isRxDataReceived modbus), HAL_TIM_Base_Start_IT m).

(** [hal] is the status [HAL_UART_Transmit] reports for this call. *)
Definition modbusRTUSendData (hal : HAL_StatusTypeDef)
    (modbus : ModbusRTU_HandleT) (functionCode : uint8_t)
    (data : list uint8_t) (dataSize : N) (m : Machine)
  : option (ModbusRTU_ErrorT * Machine) :=
  if MODBUS_RTU_MAX_DATA_SIZE <? dataSize then
    Some (MODBUS_RTU_ERROR_INVALID_FRAME, m)
  else
    let tx := Packet.set_slaveId (txPacket m) (slaveId modbus) in
    let tx := Packet.set_functionCode tx functionCode in
    d <- memcpy (Packet.data tx) data dataSize ;;
    let tx := Packet.set_data tx d in
    calCrc <- ModbusRTU_CalculateCRC (Packet.bytes tx)
                                     (to_size_t (dataSize + 2)) ;;
    d <- store (Packet.data tx) dataSize (to_uint8 (N.land calCrc 0xFF)) ;;
    let tx := Packet.set_data tx d in
    d <- store (Packet.data tx) (to_size_t (dataSize + 1))
               (to_uint8 (N.land (N.shiftr calCrc 8) 0xFF)) ;;
    let tx := Packet.set_data tx d in
    let m := set_txPacket m tx in
    sent <- HAL_UART_Transmit hal m (Packet.bytes (txPacket m))
                              (to_size_t (dataSize + 4))
                              MODBUS_RTU_TRANSMIT_TIMEOUT ;;
    let (status, m) := sent in
    if negb (HAL_StatusTypeDef_eqb HAL_OK status)
    then Some (MODBUS_RTU_ERROR_TX_FAILED, m)
    else Some (MODBUS_RTU_SUCCESS, m).

Definition modbusRTUReciveData (modbus : ModbusRTU_HandleT) (dataSize : N)
    (m : Machine) : ModbusRTU_ErrorT * Machine :=
  if MODBUS_RTU_MAX_DATA_SIZE <? dataSize then
    (MODBUS_RTU_ERROR_INVALID_FRAME, m)
  else
    (MODBUS_RTU_SUCCESS, HAL_UART_Receive_IT m (to_size_t (dataSize + 4))).

(** What a call of [modbusRTUCheckRxState] leaves: its result, the handle
    and the caller's buffer [data]. The static variables are only read. *)
Record CheckRx : Set := mkCheckRx {
  result : ModbusRTU_ErrorT;
  handle : ModbusRTU_HandleT;
  out : list uint8_t
}.

Definition modbusRTUCheckRxState (modbus : ModbusRTU_HandleT)
    (data : list uint8_t) (dataSize : N) (m : Machine) : option CheckRx :=
  if Bool.eqb true (isRxDataReceived modbus) then
    let rx := rxPacket m in
    if negb (Byte.eqb (Packet.slaveId rx) (slaveId modbus)) then
      Some (mkCheckRx MODBUS_RTU_ERROR_INVALID_SLAVE_ID
                      (mkHandle (slaveId modbus) false) data)
    else
      calCrc <- ModbusRTU_CalculateCRC (Packet.bytes rx)
                                       (to_size_t (dataSize + 2)) ;;
      hi <- load (Packet.data rx) dataSize ;;
      lo <- load (Packet.data rx) (to_size_t (dataSize + 1)) ;;
      let receivedCRC := to_uint16 (N.lor (N.shiftl (u8 hi) 8) (u8 lo)) in
      if negb (calCrc =? receivedCRC) then
        Some (mkCheckRx MODBUS_RTU_ERROR_CRC
                        (mkHandle (slaveId modbus) false) data)
      else
        data' <- memcpy data (Packet.data rx) dataSize ;;
        Some (mkCheckRx MODBUS_RTU_SUCCESS
                        (mkHandle (slaveId modbus) false) data')
  else if false then
    Some (mkCheckRx MODBUS_RTU_ERROR_RX_TIMEOUT
                    (mkHandle (slaveId modbus) false) data)
  else
    Some (mkCheckRx MODBUS_RTU_RX_BUSY modbus data).

(** ** CRC-16/MODBUS, following the words of the specification *)

Module Reference.

(** "if the low bit is set, right-shift the accumulator by 1 and
    exclusive-or with 0xA001, otherwise just right-shift by 1" *)
Definition shift_once (acc : N) : N :=
  if N.testbit acc 0 then N.lxor (N.shiftr acc 1) 0xA001
  else N.shiftr acc 1.

(** "exclusive-or it into the low byte of the accumulator, then repeat 8
    times" *)
Definition absorb (acc : N) (b : byte) : N :=
  Nat.iter 8 shift_once (N.lxor acc (u8 b)).

(** "start the 16-bit accumulator at 0xFFFF; for each byte ..." *)
Definition crc16_modbus (bytes : list byte) : N :=
  fold_left absorb bytes 0xFFFF.

(** "write slaveId and functionCode as the first two bytes; copy payload
    immediately after; compute CRC over [slaveId, functionCode, payload...];
    append CRC low byte then CRC high byte" *)
Definition encode (slaveId functionCode : byte) (payload : list byte)
  : list byte :=
  let body := slaveId :: functionCode :: payload in
  let crc := crc16_modbus body in
  body ++ [to_uint8 (crc mod 256); to_uint8 (crc / 256)].

End Reference.

(** The packet [modbusRTUSendData] leaves in [txPacket]. *)
Definition sent_packet (modbus : ModbusRTU_HandleT) (functionCode : uint8_t)
    (payload : list uint8_t) (old : Packet.t) : Packet.t :=
  let crc := Reference.crc16_modbus (slaveId modbus :: functionCode :: payload) in
  Packet.mk (slaveId modbus) functionCode
            (payload ++ to_uint8 (crc mod 256) :: to_uint8 (crc / 256)
                     :: skipn (length payload + 2) (Packet.data old)).

(** ** Scenarios *)

(** A request is submitted and the very frame handed to the transport comes
    back as the response, which is then checked into the buffer [data]. *)
Definition loopback (modbus : ModbusRTU_HandleT) (functionCode : uint8_t)
    (payload : list uint8_t) (data : list uint8_t) (m : Machine)
  : option CheckRx :=
  let dataSize := N.of_nat (length payload) in
  sent <- modbusRTUSendData HAL_OK modbus functionCode payload dataSize m ;;
  frame <- hd_error (uart_sent (snd sent)) ;;
  got <- rx_complete frame modbus (snd sent) ;;
  modbusRTUCheckRxState (fst got) data dataSize (snd got).

(** A request is submitted, a reception is armed, no completion is ever
    notified, and the result is checked [dt] time units later. *)
Definition unanswered_request (slaveId functionCode : uint8_t)
    (payload : list uint8_t) (expected : N) (data : list uint8_t) (dt : N)
  : option CheckRx :=
  let (modbus, m) := modbusRTUInit (mkHandle x00 false) slaveId power_on in
  sent <- modbusRTUSendData HAL_OK modbus functionCode payload
                            (N.of_nat (length payload)) m ;;
  let armed := modbusRTUReciveData modbus expected (snd sent) in
  modbusRTUCheckRxState modbus data expected (time_passes dt (snd armed)).

(** A second request is submitted while the first one is still unresolved:
    the first was sent, its reception armed, and a check reported
    [MODBUS_RTU_RX_BUSY]. Yields the results of the three calls made after
    the first submit, and the machine left by the last one. *)
Definition submit_twice (modbus : ModbusRTU_HandleT) (m : Machine)
    (fc1 : uint8_t) (payload1 : list uint8_t) (expected : N)
    (fc2 : uint8_t) (payload2 : list uint8_t)
  : option (ModbusRTU_ErrorT * ModbusRTU_ErrorT * ModbusRTU_ErrorT * Machine) :=
  sent1 <- modbusRTUSendData HAL_OK modbus fc1 payload1
                             (N.of_nat (length payload1)) m ;;
  let armed := modbusRTUReciveData modbus expected (snd sent1) in
  polled <- modbusRTUCheckRxState modbus [] 0 (snd armed) ;;
  sent2 <- modbusRTUSendData HAL_OK (handle polled) fc2 payload2
                             (N.of_nat (length payload2)) (snd armed) ;;
  Some (fst sent1, result polled, fst sent2, snd sent2).

(** ** Concrete inputs *)

(** A master addressing slave 1, its handle zero-initialised before
    [modbusRTUInit], on a machine fresh from power-on. *)
Definition master_1 : ModbusRTU_HandleT :=
  fst (modbusRTUInit (mkHandle x00 false) x01 power_on).
Definition ready : Machine :=
  snd (modbusRTUInit (mkHandle x00 false) x01 power_on).

(** "Read holding registers", ten registers from address 0, as it goes over
    the wire: [01 03 00 00 00 0A], CRC 0xCDC5 sent low byte first. *)
Definition read_payload : list uint8_t := [x00; x00; x00; x0a].
Definition read_frame : list uint8_t :=
  [x01; x03; x00; x00; x00; x0a; xc5; xcd].

(** "Write single register", value 3 to register 1: [01 06 00 01 00 03],
    CRC 0x0B98. *)
Definition write_payload : list uint8_t := [x00; x01; x00; x03].
Definition write_frame : list uint8_t :=
  [x01; x06; x00; x01; x00; x03; x98; x0b].

(** The same read request answered by slave 2, with the two CRC bytes in
    the order [modbusRTUCheckRxState] accepts (CRC 0xFEC5). *)
Definition slave_2_frame : list uint8_t :=
  [x02; x03; x00; x00; x00; x0a; xfe; xc5].

(** The machine once [frame] has been received in full. *)
Definition received (frame : list uint8_t) (modbus : ModbusRTU_HandleT)
  : option (ModbusRTU_HandleT * Machine) :=
  rx_complete frame modbus ready.

(** The check made once [frame] has been received in full. *)
Definition check_received (frame : list uint8_t) (modbus : ModbusRTU_HandleT)
    (data : list uint8_t) (dataSize : N) : option CheckRx :=
  got <- received frame modbus ;;
  modbusRTUCheckRxState (fst got) data dataSize (snd got).

(** The machine once [slave_2_frame] has been received in full. *)
Definition slave_2_answered : Machine :=
  mkMachine Packet.zero
            (Packet.mk x02 x03
                       ([x00; x00; x00; x0a; xfe; xc5] ++ repeat x00 246))
            [] None true 0.

(** The machine once [read_frame] has been received in full. *)
Definition read_answered : Machine :=
  mkMachine Packet.zero
            (Packet.mk x01 x03
                       ([x00; x00; x00; x0a; xc5; xcd] ++ repeat x00 246))
            [] None true 0.

(** ** Limits on what is exchanged with the UART *)

(** Both packets have their declared size, an armed reception and every
    frame handed to the transport span between 4 bytes and the 254 bytes of
    a packet. *)
Definition within_packet (m : Machine) : Prop :=
  wf_machine m
  /\ (forall k, uart_armed m = Some k -> 4 <= k <= 254)
  /\ Forall (fun frame => (4 <= length frame <= 254)%nat) (uart_sent m).

(** ** Arithmetic facts on machine integers *)

Definition is_uint16 (n : N) : Prop := n < 65536.

Lemma u8_range (b : uint8_t) : u8 b < 256.
Proof. unfold u8. pose proof (Byte.to_N_bounded b). lia. Qed.

Lemma to_uint16_id (n : N) : is_uint16 n -> to_uint16 n = n.
Proof. unfold is_uint16, to_uint16. intros H. apply N.mod_small; exact H. Qed.

Lemma log2_uint16 (a : N) : is_uint16 a -> N.log2 a < 16.
Proof.
  unfold is_uint16. intros Ha.
  destruct (N.eq_dec a 0) as [-> | Hz]; [reflexivity | ].
  apply N.log2_lt_pow2; [lia | exact Ha].
Qed.

Lemma lxor_uint16 (a b : N) :
  is_uint16 a -> is_uint16 b -> is_uint16 (N.lxor a b).
Proof.
  intros Ha Hb. apply log2_uint16 in Ha, Hb.
  pose proof (N.log2_lxor a b) as Hl.
  destruct (N.eq_dec (N.lxor a b) 0) as [Hz | Hz].
  - rewrite Hz. reflexivity.
  - unfold is_uint16. change 65536 with (2 ^ 16).
    apply N.log2_lt_pow2; lia.
Qed.

Lemma shiftr1_uint16 (a : N) : is_uint16 a -> is_uint16 (N.shiftr a 1).
Proof.
  unfold is_uint16. intros H. rewrite N.shiftr_div_pow2.
  change (2 ^ 1) with 2. apply N.Div0.div_lt_upper_bound. lia.
Qed.

Lemma u8_uint16 (b : uint8_t) : is_uint16 (u8 b).
Proof. pose proof (u8_range b). unfold is_uint16. lia. Qed.

Lemma land1_testbit (n : N) : negb (N.land n 1 =? 0) = N.testbit n 0.
Proof.
  destruct n as [ | [ p | p | ] ]; reflexivity.
Qed.

(** ** The CRC loops against the reference *)

Lemma crc_shift_uint16 (crc : N) : is_uint16 crc -> is_uint16 (crc_shift crc).
Proof.
  intros H. unfold crc_shift.
  pose proof (shiftr1_uint16 crc H) as Hs.
  assert (Hx : is_uint16 (N.lxor (N.shiftr crc 1) 0xA001))
    by (apply lxor_uint16; [exact Hs | reflexivity]).
  destruct (negb (N.land crc 1 =? 0)); cbv zeta.
  - rewrite (to_uint16_id _ Hs), (to_uint16_id _ Hx). exact Hx.
  - rewrite (to_uint16_id _ Hs). exact Hs.
Qed.

Lemma crc_shift_reference (crc : N) :
  is_uint16 crc -> crc_shift crc = Reference.shift_once crc.
Proof.
  intros H. unfold crc_shift, Reference.shift_once.
  pose proof (shiftr1_uint16 crc H) as Hs.
  rewrite land1_testbit. destruct (N.testbit crc 0); cbv zeta.
  - rewrite (to_uint16_id _ Hs). apply to_uint16_id.
    apply lxor_uint16; [exact Hs | reflexivity].
  - apply to_uint16_id; exact Hs.
Qed.

Lemma crc_bit_loop_reference (k : nat) (crc : N) :
  is_uint16 crc ->
  crc_bit_loop k crc = Nat.iter k Reference.shift_once crc
  /\ is_uint16 (crc_bit_loop k crc).
Proof.
  revert crc. induction k as [ | k IH]; intros crc H.
  - split; [reflexivity | exact H].
  - cbn [crc_bit_loop]. destruct (IH _ (crc_shift_uint16 crc H)) as [E R].
    split; [ | exact R].
    rewrite E, (crc_shift_reference crc H).
    symmetry. apply Nat.iter_succ_r.
Qed.

Lemma absorb_uint16 (crc : N) (b : uint8_t) :
  is_uint16 crc -> is_uint16 (Reference.absorb crc b).
Proof.
  intros H. unfold Reference.absorb.
  assert (Hx : is_uint16 (N.lxor crc (u8 b)))
    by (apply lxor_uint16; [exact H | apply u8_uint16]).
  destruct (crc_bit_loop_reference 8 _ Hx) as [E R]. rewrite <- E. exact R.
Qed.

Lemma fold_absorb_uint16 (bs : list uint8_t) (crc : N) :
  is_uint16 crc -> is_uint16 (fold_left Reference.absorb bs crc).
Proof.
  revert crc. induction bs as [ | b bs IH]; intros crc H; cbn [fold_left].
  - exact H.
  - apply IH, absorb_uint16, H.
Qed.

Lemma crc16_modbus_uint16 (bs : list uint8_t) :
  is_uint16 (Reference.crc16_modbus bs).
Proof. apply fold_absorb_uint16. reflexivity. Qed.

Lemma crc_byte_loop_reference (data : list uint8_t) (k : nat) :
  forall (i : N) (crc : N),
    is_uint16 crc ->
    (N.to_nat i + k <= length data)%nat ->
    crc_byte_loop data i k crc
    = Some (fold_left Reference.absorb
                      (firstn k (skipn (N.to_nat i) data)) crc).
Proof.
  induction k as [ | k IH]; intros i crc Hc Hlen.
  - reflexivity.
  - cbn [crc_byte_loop]. unfold load.
    destruct (nth_error data (N.to_nat i)) as [b | ] eqn:Hb.
    2:{ apply nth_error_None in Hb. lia. }
    assert (Hx : is_uint16 (N.lxor crc (u8 b)))
      by (apply lxor_uint16; [exact Hc | apply u8_uint16]).
    rewrite (to_uint16_id _ Hx).
    destruct (crc_bit_loop_reference 8 _ Hx) as [E R].
    rewrite IH; [ | exact R | lia ].
    f_equal.
    replace (N.to_nat (i + 1)) with (S (N.to_nat i)) by lia.
    destruct (skipn (N.to_nat i) data) as [ | b' rest] eqn:Hs.
    + apply (f_equal (@length _)) in Hs. rewrite length_skipn in Hs.
      cbn in Hs. lia.
    + pose proof (nth_error_skipn (N.to_nat i) data 0) as Hn.
      rewrite Hs, Nat.add_0_r, Hb in Hn. cbn in Hn. injection Hn as ->.
      assert (Hr : skipn (S (N.to_nat i)) data = rest).
      { change (S (N.to_nat i)) with (1 + N.to_nat i)%nat.
        rewrite <- skipn_skipn, Hs. reflexivity. }
      rewrite Hr. cbn [firstn fold_left]. rewrite E. reflexivity.
Qed.

Lemma CalculateCRC_fold (data : list uint8_t) (length : N) :
  length <= N.of_nat (List.length data) ->
  ModbusRTU_CalculateCRC data length
  = Some (Reference.crc16_modbus (firstn (N.to_nat length) data)).
Proof.
  intros Hlen. unfold ModbusRTU_CalculateCRC, Reference.crc16_modbus.
  rewrite crc_byte_loop_reference; [reflexivity | reflexivity | ].
  change (N.to_nat 0) with O. lia.
Qed.

(** ** Lists as memory objects *)

Lemma firstn_app_at {A : Type} (p r : list A) (k j : nat) :
  length p = k -> firstn (k + j) (p ++ r) = p ++ firstn j r.
Proof. intros <-. apply firstn_app_2. Qed.

Lemma skipn_app_at {A : Type} (p r : list A) (k j : nat) :
  length p = k -> skipn (k + j) (p ++ r) = skipn j r.
Proof.
  intros <-. rewrite skipn_app, skipn_all2 by lia.
  replace (length p + j - length p)%nat with j by lia. reflexivity.
Qed.

Lemma firstn_app_exact {A : Type} (p r : list A) (k : nat) :
  length p = k -> firstn k (p ++ r) = p.
Proof.
  intros H. rewrite <- (Nat.add_0_r k), (firstn_app_at p r k 0 H).
  cbn. apply app_nil_r.
Qed.

Lemma skipn_app_exact {A : Type} (p r : list A) (k : nat) :
  length p = k -> skipn k (p ++ r) = r.
Proof.
  intros H. rewrite <- (Nat.add_0_r k), (skipn_app_at p r k 0 H). reflexivity.
Qed.

Lemma memcpy_ok (dst src : list uint8_t) (n : N) :
  n <= N.of_nat (length dst) -> n <= N.of_nat (length src) ->
  memcpy dst src n
  = Some (firstn (N.to_nat n) src ++ skipn (N.to_nat n) dst).
Proof.
  intros Hd Hs. unfold memcpy.
  apply N.leb_le in Hd, Hs. rewrite Hd, Hs. reflexivity.
Qed.

Lemma store_ok (a : list uint8_t) (i : N) (v : uint8_t) :
  i < N.of_nat (length a) ->
  store a i v = Some (firstn (N.to_nat i) a ++ v :: skipn (S (N.to_nat i)) a).
Proof. intros H. unfold store. apply N.ltb_lt in H. rewrite H. reflexivity. Qed.

Lemma read_bytes_ok (obj : list uint8_t) (n : N) :
  n <= N.of_nat (length obj) ->
  read_bytes obj n = Some (firstn (N.to_nat n) obj).
Proof. intros H. unfold read_bytes. apply N.leb_le in H. rewrite H. reflexivity. Qed.

Lemma to_size_t_small (n : N) : n < 4294967296 -> to_size_t n = n.
Proof. intros H. unfold to_size_t. apply N.mod_small, H. Qed.

Lemma u8_to_uint8 (n : N) : u8 (to_uint8 n) = n mod 256.
Proof.
  unfold u8, to_uint8.
  assert (Hlt : n mod 256 < 256) by (apply N.mod_lt; discriminate).
  destruct (Byte.of_N (n mod 256)) as [b | ] eqn:E.
  - apply Byte.to_of_N, E.
  - apply Byte.of_N_None_iff in E. lia.
Qed.

Lemma to_uint8_u8 (b : uint8_t) : to_uint8 (u8 b) = b.
Proof.
  unfold to_uint8, u8. rewrite N.mod_small by (pose proof (u8_range b); exact H).
  rewrite Byte.of_to_N. reflexivity.
Qed.

Lemma u8_inj (a b : uint8_t) : u8 a = u8 b -> a = b.
Proof. intros H. rewrite <- (to_uint8_u8 a), <- (to_uint8_u8 b), H. reflexivity. Qed.

Lemma land_255 (n : N) : N.land n 0xFF = n mod 256.
Proof. change 0xFF with (N.ones 8). rewrite N.land_ones. reflexivity. Qed.

Lemma shiftr_8 (n : N) : N.shiftr n 8 = n / 256.
Proof. rewrite N.shiftr_div_pow2. reflexivity. Qed.

Lemma crc_low_byte (crc : N) : to_uint8 (N.land crc 0xFF) = to_uint8 (crc mod 256).
Proof. rewrite land_255. reflexivity. Qed.

Lemma crc_high_byte (crc : N) :
  to_uint8 (N.land (N.shiftr crc 8) 0xFF) = to_uint8 (crc / 256).
Proof.
  rewrite land_255, shiftr_8. unfold to_uint8.
  rewrite N.Div0.mod_mod. reflexivity.
Qed.

Lemma lor_shiftl_8 (hi lo : N) :
  lo < 256 -> N.lor (N.shiftl hi 8) lo = 256 * hi + lo.
Proof.
  intros Hlo.
  assert (Hd : N.land (N.shiftl hi 8) lo = 0).
  { apply N.bits_inj. intros k. rewrite N.land_spec, N.bits_0.
    destruct (N.lt_ge_cases k 8) as [Hk | Hk].
    - rewrite N.shiftl_spec_low by exact Hk. reflexivity.
    - destruct (N.eq_dec lo 0) as [-> | Hz].
      + rewrite N.bits_0. apply andb_false_r.
      + rewrite (N.bits_above_log2 lo k), andb_false_r; [reflexivity | ].
        assert (N.log2 lo < 8) by (apply N.log2_lt_pow2; [lia | exact Hlo]).
        lia. }
  rewrite <- N.lxor_lor by exact Hd.
  rewrite <- N.add_nocarry_lxor by exact Hd.
  rewrite N.shiftl_mul_pow2. change (2 ^ 8) with 256. lia.
Qed.

Lemma receivedCRC_value (hi lo : uint8_t) :
  to_uint16 (N.lor (N.shiftl (u8 hi) 8) (u8 lo)) = 256 * u8 hi + u8 lo.
Proof.
  pose proof (u8_range hi). pose proof (u8_range lo).
  rewrite lor_shiftl_8 by assumption.
  apply to_uint16_id. unfold is_uint16. lia.
Qed.

(** ** [modbusRTUSendData] *)

Lemma modbusRTUSendData_oversized hal modbus functionCode data dataSize m :
  MODBUS_RTU_MAX_DATA_SIZE < dataSize ->
  modbusRTUSendData hal modbus functionCode data dataSize m
  = Some (MODBUS_RTU_ERROR_INVALID_FRAME, m).
Proof.
  intros H. unfold modbusRTUSendData.
  apply N.ltb_lt in H. rewrite H. reflexivity.
Qed.

Lemma modbusRTUSendData_frame hal modbus functionCode data dataSize m :
  dataSize <= MODBUS_RTU_MAX_DATA_SIZE ->
  dataSize <= N.of_nat (length data) ->
  Packet.wf (txPacket m) ->
  let payload := firstn (N.to_nat dataSize) data in
  modbusRTUSendData hal modbus functionCode data dataSize m
  = Some (if HAL_StatusTypeDef_eqb HAL_OK hal
          then MODBUS_RTU_SUCCESS else MODBUS_RTU_ERROR_TX_FAILED,
          mkMachine (sent_packet modbus functionCode payload (txPacket m))
                    (rxPacket m)
                    (Reference.encode (slaveId modbus) functionCode payload
                                      :: uart_sent m)
                    (uart_armed m) (tim_started m) (tim_elapsed m)).
Proof.
  intros Hmax Hdata Hwf payload.
  unfold Packet.wf, Packet.data_size in *.
  unfold MODBUS_RTU_MAX_DATA_SIZE in *.
  assert (Hk : length payload = N.to_nat dataSize)
    by (apply firstn_length_le; lia).
  set (old := Packet.data (txPacket m)) in *.
  unfold modbusRTUSendData, MODBUS_RTU_MAX_DATA_SIZE.
  replace (250 <? dataSize) with false by (symmetry; apply N.ltb_ge; lia).
  cbn [Packet.data Packet.set_slaveId Packet.set_functionCode Packet.set_data
       Packet.slaveId Packet.functionCode].
  fold old. rewrite memcpy_ok by lia. fold payload.
  rewrite !to_size_t_small by lia.
  unfold Packet.bytes at 1.
  cbv beta iota delta [Packet.data Packet.slaveId Packet.functionCode
                       Packet.set_data Packet.set_slaveId
                       Packet.set_functionCode].
  rewrite CalculateCRC_fold by (cbn [length]; rewrite length_app, length_skipn; lia).
  replace (N.to_nat (dataSize + 2)) with (S (S (N.to_nat dataSize))) by lia.
  cbn [firstn]. rewrite (firstn_app_exact payload _ _ Hk).
  set (crc := Reference.crc16_modbus _).
  rewrite crc_low_byte, crc_high_byte.
  rewrite store_ok by (rewrite length_app, length_skipn; lia).
  rewrite (firstn_app_exact payload _ _ Hk).
  rewrite <- Nat.add_1_r, (skipn_app_at payload _ _ 1 Hk), skipn_skipn.
  rewrite store_ok by (rewrite !length_app; cbn [length]; rewrite length_skipn; lia).
  replace (N.to_nat (dataSize + 1)) with (N.to_nat dataSize + 1)%nat by lia.
  rewrite (firstn_app_at payload _ _ 1 Hk). cbn [firstn].
  replace (S (N.to_nat dataSize + 1)) with (N.to_nat dataSize + 2)%nat by lia.
  rewrite (skipn_app_at payload _ _ 2 Hk).
  match goal with
  | |- context [Packet.mk _ _ ?d] =>
      replace d with (payload ++ to_uint8 (crc mod 256) :: to_uint8 (crc / 256)
                              :: skipn (length payload + 2) old)
  end.
  2:{ rewrite <- app_assoc. cbn [app].
      change (skipn 2 (?x :: ?l)) with (skipn 1 l).
      rewrite skipn_skipn. do 4 f_equal. lia. }
  unfold HAL_UART_Transmit, set_txPacket. cbn [txPacket Packet.bytes].
  unfold Packet.bytes.
  cbv beta iota delta [Packet.data Packet.slaveId Packet.functionCode].
  rewrite read_bytes_ok
    by (cbn [length]; rewrite length_app; cbn [length];
        rewrite length_skipn; lia).
  replace (N.to_nat (dataSize + 4))
    with (S (S (N.to_nat dataSize + 2))) by lia.
  cbn [firstn]. rewrite (firstn_app_at payload _ _ 2 Hk). cbn [firstn].
  unfold Reference.encode, sent_packet. cbv zeta. fold crc. fold old.
  cbn [rxPacket uart_sent uart_armed tim_started tim_elapsed app].
  destruct hal; reflexivity.
Qed.


(** ** [modbusRTUCheckRxState] *)

Lemma byte_eqb_refl (b : byte) : Byte.eqb b b = true.
Proof. apply Byte.byte_dec_lb. reflexivity. Qed.

Lemma byte_eqb_neq (a b : byte) : a <> b -> Byte.eqb a b = false.
Proof.
  intros H. destruct (Byte.eqb a b) eqn:E; [ | reflexivity].
  apply Byte.byte_dec_bl in E. contradiction.
Qed.

Lemma modbusRTUCheckRxState_busy modbus data dataSize m :
  isRxDataReceived modbus = false ->
  modbusRTUCheckRxState modbus data dataSize m
  = Some (mkCheckRx MODBUS_RTU_RX_BUSY modbus data).
Proof. intros H. unfold modbusRTUCheckRxState. rewrite H. reflexivity. Qed.

Lemma modbusRTUCheckRxState_wrong_slave modbus data dataSize m :
  isRxDataReceived modbus = true ->
  Packet.slaveId (rxPacket m) <> slaveId modbus ->
  modbusRTUCheckRxState modbus data dataSize m
  = Some (mkCheckRx MODBUS_RTU_ERROR_INVALID_SLAVE_ID
                    (mkHandle (slaveId modbus) false) data).
Proof.
  intros Hf Hs. unfold modbusRTUCheckRxState.
  rewrite Hf, (byte_eqb_neq _ _ Hs). reflexivity.
Qed.

Lemma load_ok (a : list uint8_t) (i : N) :
  i < N.of_nat (length a) -> exists b, load a i = Some b.
Proof.
  intros H. unfold load.
  destruct (nth_error a (N.to_nat i)) as [b | ] eqn:E.
  - exists b. reflexivity.
  - apply nth_error_None in E. lia.
Qed.

(** The validation made once the slave id matches: the CRC of the first
    [dataSize + 2] bytes against the value whose high byte is
    [rxPacket.data[dataSize]] and whose low byte is
    [rxPacket.data[dataSize + 1]]. *)
Lemma modbusRTUCheckRxState_decode modbus data dataSize m :
  isRxDataReceived modbus = true ->
  Packet.slaveId (rxPacket m) = slaveId modbus ->
  dataSize <= MODBUS_RTU_MAX_DATA_SIZE ->
  Packet.wf (rxPacket m) ->
  exists first second : uint8_t,
    load (Packet.data (rxPacket m)) dataSize = Some first
    /\ load (Packet.data (rxPacket m)) (dataSize + 1) = Some second
    /\ modbusRTUCheckRxState modbus data dataSize m
       = if Reference.crc16_modbus
              (firstn (N.to_nat (dataSize + 2)) (Packet.bytes (rxPacket m)))
            =? 256 * u8 first + u8 second
         then
           data' <- memcpy data (Packet.data (rxPacket m)) dataSize ;;
           Some (mkCheckRx MODBUS_RTU_SUCCESS
                           (mkHandle (slaveId modbus) false) data')
         else
           Some (mkCheckRx MODBUS_RTU_ERROR_CRC
                           (mkHandle (slaveId modbus) false) data).
Proof.
  intros Hf Hs Hmax Hwf.
  unfold Packet.wf, Packet.data_size in Hwf.
  unfold MODBUS_RTU_MAX_DATA_SIZE in *.
  destruct (load_ok (Packet.data (rxPacket m)) dataSize) as [first H1]; [lia | ].
  destruct (load_ok (Packet.data (rxPacket m)) (dataSize + 1)) as [second H2];
    [lia | ].
  exists first, second. split; [exact H1 | split; [exact H2 | ] ].
  unfold modbusRTUCheckRxState.
  rewrite Hf, Hs, byte_eqb_refl. cbn [Bool.eqb negb].
  rewrite !to_size_t_small by lia.
  rewrite CalculateCRC_fold by (unfold Packet.bytes; cbn [length]; lia).
  rewrite H1, H2, receivedCRC_value.
  destruct (_ =? _); reflexivity.
Qed.

(** * The claims *)

(** ** CRC engine *)

(** C2. [ModbusRTU_CalculateCRC] returns the CRC-16/MODBUS value of the
    reference algorithm (accumulator started at 0xFFFF; each byte
    exclusive-ored into the low byte, then eight times: shift right by one,
    and exclusive-or with 0xA001 when the bit shifted out was set) over the
    first [length] bytes of [data], for every byte sequence [data] and every
    [length] within it; the value is a 16-bit one. *)
Theorem ModbusRTU_CalculateCRC_reference (data : list uint8_t) (length : N) :
  length <= N.of_nat (List.length data) ->
  ModbusRTU_CalculateCRC data length
  = Some (Reference.crc16_modbus (firstn (N.to_nat length) data))
  /\ Reference.crc16_modbus (firstn (N.to_nat length) data) < 65536.
Proof.
  intros Hlen. split.
  - apply CalculateCRC_fold, Hlen.
  - apply crc16_modbus_uint16.
Qed.

Lemma ModbusRTU_CalculateCRC_reference_witness :
  ModbusRTU_CalculateCRC read_frame 6
  = Some (Reference.crc16_modbus (firstn (N.to_nat 6) read_frame))
  /\ Reference.crc16_modbus (firstn (N.to_nat 6) read_frame) < 65536.
Proof.
  apply (ModbusRTU_CalculateCRC_reference read_frame 6).
  vm_compute. discriminate.
Defined.

(** The check value of CRC-16/MODBUS: the ASCII digits 1 to 9 give 0x4B37. *)
Lemma ModbusRTU_CalculateCRC_check_value :
  ModbusRTU_CalculateCRC [x31; x32; x33; x34; x35; x36; x37; x38; x39] 9
  = Some 0x4B37
  /\ Reference.crc16_modbus [x31; x32; x33; x34; x35; x36; x37; x38; x39]
     = 0x4B37.
Proof. split; reflexivity. Qed.

(** Known frames: the CRC of [01 03 00 00 00 0A] is 0xCDC5, that of
    [01 06 00 01 00 03] is 0x0B98. *)
Lemma ModbusRTU_CalculateCRC_known_frames :
  ModbusRTU_CalculateCRC read_frame 6 = Some 0xCDC5
  /\ ModbusRTU_CalculateCRC write_frame 6 = Some 0x0B98.
Proof. split; reflexivity. Qed.

(** ** Frame construction *)

Lemma sent_packet_wf modbus functionCode payload old :
  Packet.wf old ->
  N.of_nat (length payload) <= MODBUS_RTU_MAX_DATA_SIZE ->
  Packet.wf (sent_packet modbus functionCode payload old).
Proof.
  unfold Packet.wf, sent_packet, Packet.data_size, MODBUS_RTU_MAX_DATA_SIZE.
  cbn [Packet.data]. intros Hwf Hmax.
  rewrite length_app. cbn [length]. rewrite length_skipn. lia.
Qed.

Lemma crc_split (crc : N) :
  is_uint16 crc ->
  u8 (to_uint8 (crc mod 256)) = crc mod 256
  /\ u8 (to_uint8 (crc / 256)) = crc / 256.
Proof.
  unfold is_uint16. intros H. rewrite !u8_to_uint8. split.
  - apply N.Div0.mod_mod.
  - apply N.mod_small. apply N.Div0.div_lt_upper_bound. lia.
Qed.

(** C6. For [dataSize <= 250], the frame [modbusRTUSendData] builds and
    hands to the transport has the slave id as byte 0, the function code as
    byte 1, the [dataSize] payload bytes right after, then the low byte and
    then the high byte of the CRC computed over its first [dataSize + 2]
    bytes; it is [dataSize + 4] bytes long, and it is what lies at the start
    of [txPacket]. *)
Theorem modbusRTUSendData_frame_layout
    hal modbus functionCode data dataSize m :
  dataSize <= MODBUS_RTU_MAX_DATA_SIZE ->
  dataSize <= N.of_nat (length data) ->
  Packet.wf (txPacket m) ->
  exists r m' frame crc lo hi,
    modbusRTUSendData hal modbus functionCode data dataSize m = Some (r, m')
    /\ uart_sent m' = frame :: uart_sent m
    /\ frame = slaveId modbus :: functionCode
                  :: firstn (N.to_nat dataSize) data ++ [lo; hi]
    /\ ModbusRTU_CalculateCRC frame (dataSize + 2) = Some crc
    /\ u8 lo = crc mod 256
    /\ u8 hi = crc / 256
    /\ N.of_nat (length frame) = dataSize + 4
    /\ read_bytes (Packet.bytes (txPacket m')) (dataSize + 4) = Some frame.
Proof.
  intros Hmax Hdata Hwf.
  pose proof (modbusRTUSendData_frame hal modbus functionCode data dataSize m
                                      Hmax Hdata Hwf) as Hsend.
  cbv zeta in Hsend.
  set (payload := firstn (N.to_nat dataSize) data) in *.
  assert (Hk : length payload = N.to_nat dataSize).
  { apply firstn_length_le. lia. }
  clearbody payload.
  set (crc := Reference.crc16_modbus (slaveId modbus :: functionCode :: payload)).
  destruct (crc_split crc (crc16_modbus_uint16 _)) as [Hlo Hhi].
  eexists _, _, (Reference.encode (slaveId modbus) functionCode payload),
    crc, (to_uint8 (crc mod 256)), (to_uint8 (crc / 256)).
  unfold MODBUS_RTU_MAX_DATA_SIZE in Hmax.
  split; [exact Hsend | ]. cbn [uart_sent txPacket].
  split; [reflexivity | ].
  split; [reflexivity | ].
  assert (Hlen : length (Reference.encode (slaveId modbus) functionCode payload)
                 = (N.to_nat dataSize + 4)%nat).
  { unfold Reference.encode. cbv zeta. cbn [app length].
    rewrite length_app. cbn [length]. lia. }
  split.
  { rewrite CalculateCRC_fold by (rewrite Hlen; lia).
    unfold Reference.encode. cbv zeta. cbn [app].
    replace (N.to_nat (dataSize + 2)) with (S (S (N.to_nat dataSize))) by lia.
    cbn [firstn]. rewrite (firstn_app_exact payload _ _ Hk). reflexivity. }
  split; [exact Hlo | ].
  split; [exact Hhi | ].
  split; [rewrite Hlen; lia | ].
  unfold sent_packet, Packet.bytes. cbv zeta. cbn [Packet.slaveId Packet.functionCode Packet.data].
  fold crc.
  rewrite read_bytes_ok.
  2:{ cbn [length]. rewrite length_app. cbn [length]. lia. }
  replace (N.to_nat (dataSize + 4)) with (S (S (N.to_nat dataSize + 2))) by lia.
  cbn [firstn]. rewrite (firstn_app_at payload _ _ 2 Hk). reflexivity.
Qed.

Lemma modbusRTUSendData_frame_layout_witness :
  exists r m' frame crc lo hi,
    modbusRTUSendData HAL_OK master_1 x03 read_payload 4 ready = Some (r, m')
    /\ uart_sent m' = frame :: uart_sent ready
    /\ frame = slaveId master_1 :: x03
                  :: firstn (N.to_nat 4) read_payload ++ [lo; hi]
    /\ ModbusRTU_CalculateCRC frame (4 + 2) = Some crc
    /\ u8 lo = crc mod 256
    /\ u8 hi = crc / 256
    /\ N.of_nat (length frame) = 4 + 4
    /\ read_bytes (Packet.bytes (txPacket m')) (4 + 4) = Some frame.
Proof.
  apply (modbusRTUSendData_frame_layout HAL_OK master_1 x03 read_payload 4 ready).
  - vm_compute. discriminate.
  - vm_compute. discriminate.
  - reflexivity.
Defined.

(** The frame of the read request, byte by byte. *)
Lemma modbusRTUSendData_read_frame :
  option_map (fun sent => (fst sent, uart_sent (snd sent)))
             (modbusRTUSendData HAL_OK master_1 x03 read_payload 4 ready)
  = Some (MODBUS_RTU_SUCCESS, [read_frame]).
Proof. reflexivity. Qed.

(** C7. [modbusRTUSendData] and [modbusRTUReciveData] answer a data size
    above 250 (251 in particular) with [MODBUS_RTU_ERROR_INVALID_FRAME] and
    touch nothing; with a data size of 250 neither does: the reception of
    254 bytes is armed, and the submit hands a frame of 254 bytes to the
    transport and returns [MODBUS_RTU_SUCCESS] when the transport reports
    [HAL_OK] ([MODBUS_RTU_ERROR_TX_FAILED] otherwise). *)
Theorem data_size_limit hal modbus functionCode data m :
  (forall dataSize,
      MODBUS_RTU_MAX_DATA_SIZE < dataSize ->
      modbusRTUSendData hal modbus functionCode data dataSize m
      = Some (MODBUS_RTU_ERROR_INVALID_FRAME, m)
      /\ modbusRTUReciveData modbus dataSize m
         = (MODBUS_RTU_ERROR_INVALID_FRAME, m))
  /\ modbusRTUReciveData modbus 250 m
     = (MODBUS_RTU_SUCCESS, HAL_UART_Receive_IT m 254)
  /\ (250 <= N.of_nat (length data) ->
      Packet.wf (txPacket m) ->
      exists m' frame,
        modbusRTUSendData hal modbus functionCode data 250 m
        = Some (match hal with
                | HAL_OK => MODBUS_RTU_SUCCESS
                | _ => MODBUS_RTU_ERROR_TX_FAILED
                end, m')
        /\ uart_sent m' = frame :: uart_sent m
        /\ length frame = 254%nat).
Proof.
  split; [ | split].
  - intros dataSize H. split.
    + apply modbusRTUSendData_oversized, H.
    + unfold modbusRTUReciveData. apply N.ltb_lt in H. rewrite H. reflexivity.
  - reflexivity.
  - intros Hdata Hwf.
    pose proof (modbusRTUSendData_frame hal modbus functionCode data 250 m)
      as Hsend.
    cbv zeta in Hsend. eexists _, _. split; [ | split].
    + rewrite Hsend; [ | discriminate | exact Hdata | exact Hwf ].
      destruct hal; reflexivity.
    + reflexivity.
    + unfold Reference.encode. cbv zeta. cbn [app length].
      rewrite length_app, firstn_length_le by lia. reflexivity.
Qed.

Lemma data_size_limit_witness :
  (modbusRTUSendData HAL_OK master_1 x03 (repeat xff 251) 251 ready
   = Some (MODBUS_RTU_ERROR_INVALID_FRAME, ready)
   /\ modbusRTUReciveData master_1 251 ready
      = (MODBUS_RTU_ERROR_INVALID_FRAME, ready))
  /\ exists m' frame,
      modbusRTUSendData HAL_OK master_1 x03 (repeat xff 251) 250 ready
      = Some (MODBUS_RTU_SUCCESS, m')
      /\ uart_sent m' = frame :: uart_sent ready
      /\ length frame = 254%nat.
Proof.
  destruct (data_size_limit HAL_OK master_1 x03 (repeat xff 251) ready)
    as [Hover [_ Hmax] ].
  split.
  - apply Hover. reflexivity.
  - apply Hmax.
    + vm_compute. discriminate.
    + reflexivity.
Defined.

(** ** Round trip *)

Lemma write_bytes_frame (rx : Packet.t) (s f : uint8_t) (body : list uint8_t) :
  (length body <= length (Packet.data rx))%nat ->
  Packet.write_bytes rx (s :: f :: body)
  = Some (Packet.mk s f (body ++ skipn (length body) (Packet.data rx))).
Proof.
  intros H. unfold Packet.write_bytes.
  apply Nat.leb_le in H. rewrite H. reflexivity.
Qed.

Lemma crc_bytes_swapped (crc : N) :
  (crc =? 256 * (crc mod 256) + crc / 256) = (crc / 256 =? crc mod 256).
Proof.
  pose proof (N.Div0.div_mod crc 256) as Hdm.
  pose proof (N.mod_lt crc 256 ltac:(discriminate)) as Hm.
  destruct (crc / 256 =? crc mod 256) eqn:E.
  - apply N.eqb_eq in E. apply N.eqb_eq. lia.
  - apply N.eqb_neq in E. apply N.eqb_neq. lia.
Qed.

(** What the engine makes of its own frame: the check reads the two CRC
    bytes in the opposite order to the one [modbusRTUSendData] wrote, so
    the payload comes back only when the two bytes of the CRC are equal. *)
Lemma loopback_result modbus functionCode payload data m :
  wf_machine m ->
  N.of_nat (length payload) <= MODBUS_RTU_MAX_DATA_SIZE ->
  (length payload <= length data)%nat ->
  let crc :=
    Reference.crc16_modbus (slaveId modbus :: functionCode :: payload) in
  loopback modbus functionCode payload data m
  = Some (if crc / 256 =? crc mod 256
          then mkCheckRx MODBUS_RTU_SUCCESS (mkHandle (slaveId modbus) false)
                         (payload ++ skipn (length payload) data)
          else mkCheckRx MODBUS_RTU_ERROR_CRC (mkHandle (slaveId modbus) false)
                         data).
Proof.
  intros [Htx Hrx] Hmax Hdata crc. unfold loopback.
  pose proof (modbusRTUSendData_frame HAL_OK modbus functionCode payload
                (N.of_nat (length payload)) m Hmax (N.le_refl _) Htx) as Hsend.
  cbv zeta in Hsend. rewrite Nat2N.id, firstn_all in Hsend.
  rewrite Hsend. cbn [snd fst uart_sent hd_error HAL_StatusTypeDef_eqb].
  unfold rx_complete. cbn [rxPacket txPacket uart_sent tim_started tim_elapsed].
  unfold Reference.encode. cbv zeta. fold crc. cbn [app].
  unfold Packet.wf, Packet.data_size, MODBUS_RTU_MAX_DATA_SIZE in *.
  set (lo := to_uint8 (crc mod 256)). set (hi := to_uint8 (crc / 256)).
  assert (Hbody : (length (payload ++ [lo; hi])
                   <= length (Packet.data (rxPacket m)))%nat).
  { rewrite length_app. cbn [length]. lia. }
  rewrite (write_bytes_frame _ _ _ _ Hbody). cbn [fst snd].
  set (rxdata := (payload ++ [lo; hi]) ++ _).
  set (modbus' := mkHandle (slaveId modbus) true).
  set (m' := mkMachine _ _ _ _ _ _).
  assert (Hlen : length rxdata = 252%nat).
  { unfold rxdata. rewrite length_app, length_skipn.
    rewrite length_app in *. cbn [length] in *. lia. }
  destruct (modbusRTUCheckRxState_decode modbus' data
              (N.of_nat (length payload)) m')
    as (first & second & H1 & H2 & Hcheck);
    [reflexivity | reflexivity | exact Hmax | exact Hlen | ].
  rewrite Hcheck. clear Hcheck.
  cbn [rxPacket m' Packet.data Packet.slaveId Packet.functionCode] in *.
  unfold Packet.bytes. cbn [Packet.data Packet.slaveId Packet.functionCode].
  unfold load in H1, H2.
  replace (N.to_nat (N.of_nat (length payload) + 1)) with (S (length payload))
    in H2 by lia.
  rewrite Nat2N.id in H1.
  unfold rxdata in H1, H2. rewrite <- !app_assoc in H1, H2.
  rewrite nth_error_app2 in H1, H2 by lia.
  rewrite Nat.sub_diag in H1.
  replace (S (length payload) - length payload)%nat with 1%nat in H2 by lia.
  cbn in H1, H2. injection H1 as <-. injection H2 as <-.
  replace (N.to_nat (N.of_nat (length payload) + 2))
    with (S (S (length payload))) by lia.
  cbn [firstn].
  assert (Hfirst : firstn (length payload) rxdata = payload).
  { unfold rxdata. rewrite <- app_assoc. apply firstn_app_exact. reflexivity. }
  rewrite Hfirst. fold crc.
  destruct (crc_split crc (crc16_modbus_uint16 _)) as [Hlo Hhi].
  fold lo in Hlo. fold hi in Hhi. rewrite Hlo, Hhi, crc_bytes_swapped.
  destruct (crc / 256 =? crc mod 256); [ | reflexivity].
  rewrite memcpy_ok by lia. rewrite Nat2N.id, Hfirst. reflexivity.
Qed.

(** C1. (Fails on the code.) The frame [modbusRTUSendData] builds for the
    read request of slave 1 is the well-known [01 03 00 00 00 0A C5 CD];
    checked as the received frame with the same slave id and payload length,
    it is rejected with [MODBUS_RTU_ERROR_CRC] and the caller's buffer is
    left as it was, instead of coming back as the payload with
    [MODBUS_RTU_SUCCESS]. *)
Theorem loopback_read_request_rejected :
  option_map (fun sent => (fst sent, uart_sent (snd sent)))
             (modbusRTUSendData HAL_OK master_1 x03 read_payload 4 ready)
  = Some (MODBUS_RTU_SUCCESS, [read_frame])
  /\ loopback master_1 x03 read_payload [xff; xff; xff; xff] ready
     = Some (mkCheckRx MODBUS_RTU_ERROR_CRC (mkHandle x01 false)
                       [xff; xff; xff; xff]).
Proof. split; vm_compute; reflexivity. Qed.

(** ** Validation of a received frame *)

Lemma received_slave_2_frame :
  received slave_2_frame master_1 = Some (mkHandle x01 true, slave_2_answered).
Proof. vm_compute. reflexivity. Qed.

(** [slave_2_frame] passes the CRC comparison of [modbusRTUCheckRxState]:
    a master addressing slave 2 gets its payload. *)
Lemma slave_2_frame_accepted :
  check_received slave_2_frame (mkHandle x02 false) [xff; xff; xff; xff] 4
  = Some (mkCheckRx MODBUS_RTU_SUCCESS (mkHandle x02 false) read_payload).
Proof. vm_compute. reflexivity. Qed.

(** C3. (Fails on the code.) With [01 03 00 00 00 0A C5 CD] received and
    an expected payload length of 4, the CRC over the first 6 bytes is
    0xCDC5 and so is the value of the two CRC bytes when the second of the
    pair is the high byte; yet the check returns [MODBUS_RTU_ERROR_CRC].
    With the pair swapped, [CD C5], the two values differ and the check
    returns [MODBUS_RTU_SUCCESS]: the code takes the first byte of the pair
    as the high byte. *)
Theorem check_received_takes_first_crc_byte_as_high :
  ModbusRTU_CalculateCRC read_frame (4 + 2) = Some 0xCDC5
  /\ load read_frame (2 + 4) = Some xc5
  /\ load read_frame (2 + 4 + 1) = Some xcd
  /\ 256 * u8 xcd + u8 xc5 = 0xCDC5
  /\ option_map result
       (check_received read_frame master_1 [xff; xff; xff; xff] 4)
     = Some MODBUS_RTU_ERROR_CRC
  /\ option_map result
       (check_received [x01; x03; x00; x00; x00; x0a; xcd; xc5] master_1
                       [xff; xff; xff; xff] 4)
     = Some MODBUS_RTU_SUCCESS.
Proof. repeat split; vm_compute; reflexivity. Qed.

(** C8. When the first byte of the receive buffer differs from the slave
    id of the handle, [modbusRTUCheckRxState] called with the flag set
    returns [MODBUS_RTU_ERROR_INVALID_SLAVE_ID], whatever the rest of the
    buffer holds (a valid CRC included) and whatever [dataSize] is: nothing
    else of the buffer is read. The flag is cleared and the caller's buffer
    untouched. *)
Theorem modbusRTUCheckRxState_invalid_slave_id modbus data dataSize m :
  isRxDataReceived modbus = true ->
  Packet.slaveId (rxPacket m) <> slaveId modbus ->
  modbusRTUCheckRxState modbus data dataSize m
  = Some (mkCheckRx MODBUS_RTU_ERROR_INVALID_SLAVE_ID
                    (mkHandle (slaveId modbus) false) data).
Proof. apply modbusRTUCheckRxState_wrong_slave. Qed.

Lemma modbusRTUCheckRxState_invalid_slave_id_witness :
  modbusRTUCheckRxState (mkHandle x01 true) [xff; xff; xff; xff] 4
                        slave_2_answered
  = Some (mkCheckRx MODBUS_RTU_ERROR_INVALID_SLAVE_ID
                    (mkHandle x01 false) [xff; xff; xff; xff]).
Proof.
  apply (modbusRTUCheckRxState_invalid_slave_id
           (mkHandle x01 true) [xff; xff; xff; xff] 4 slave_2_answered).
  - reflexivity.
  - discriminate.
Defined.

(** ** The receive state machine *)

(** C9. Called with the flag set, [modbusRTUCheckRxState] runs the
    validation of the receive buffer and returns with the flag cleared,
    whatever the result. The validation is the comparison of the slave ids
    and then of the CRC computed over the first [dataSize + 2] bytes of
    [rxPacket] with the 16-bit value the code rebuilds from the two bytes at
    [data[dataSize]] and [data[dataSize + 1]]: the result is
    [MODBUS_RTU_SUCCESS], with the payload copied to the caller's buffer,
    exactly when both comparisons agree; [MODBUS_RTU_ERROR_CRC] exactly
    when the slave ids agree and the two CRC values differ;
    [MODBUS_RTU_ERROR_INVALID_SLAVE_ID] exactly when the slave ids differ;
    on both failures the caller's buffer is untouched. Any call made with
    the flag set that returns at all leaves the flag clear and gives one of
    these three results. Called with the flag clear it returns
    [MODBUS_RTU_RX_BUSY] and leaves the handle, hence the flag, as it
    was. *)
Theorem modbusRTUCheckRxState_flag modbus data dataSize m :
  (isRxDataReceived modbus = true ->
   dataSize <= MODBUS_RTU_MAX_DATA_SIZE ->
   dataSize <= N.of_nat (length data) ->
   Packet.wf (rxPacket m) ->
   exists r calCrc first second,
     modbusRTUCheckRxState modbus data dataSize m = Some r
     /\ ModbusRTU_CalculateCRC (Packet.bytes (rxPacket m)) (dataSize + 2)
        = Some calCrc
     /\ load (Packet.data (rxPacket m)) dataSize = Some first
     /\ load (Packet.data (rxPacket m)) (dataSize + 1) = Some second
     /\ isRxDataReceived (handle r) = false
     /\ slaveId (handle r) = slaveId modbus
     /\ (result r = MODBUS_RTU_SUCCESS
         /\ Packet.slaveId (rxPacket m) = slaveId modbus
         /\ calCrc = to_uint16 (N.lor (N.shiftl (u8 first) 8) (u8 second))
         /\ out r = firstn (N.to_nat dataSize) (Packet.data (rxPacket m))
                      ++ skipn (N.to_nat dataSize) data
         \/ result r = MODBUS_RTU_ERROR_CRC
            /\ Packet.slaveId (rxPacket m) = slaveId modbus
            /\ calCrc <> to_uint16 (N.lor (N.shiftl (u8 first) 8) (u8 second))
            /\ out r = data
         \/ result r = MODBUS_RTU_ERROR_INVALID_SLAVE_ID
            /\ Packet.slaveId (rxPacket m) <> slaveId modbus
            /\ out r = data))
  /\ (isRxDataReceived modbus = true ->
      forall r,
        modbusRTUCheckRxState modbus data dataSize m = Some r ->
        isRxDataReceived (handle r) = false
        /\ (result r = MODBUS_RTU_SUCCESS
            \/ result r = MODBUS_RTU_ERROR_CRC
            \/ result r = MODBUS_RTU_ERROR_INVALID_SLAVE_ID))
  /\ (isRxDataReceived modbus = false ->
      modbusRTUCheckRxState modbus data dataSize m
      = Some (mkCheckRx MODBUS_RTU_RX_BUSY modbus data)).
Proof.
  split; [ | split].
  - intros Hf Hmax Hdata Hwf.
    assert (Hwf' := Hwf). assert (Hmax' := Hmax).
    unfold Packet.wf, Packet.data_size, MODBUS_RTU_MAX_DATA_SIZE in Hwf', Hmax'.
    destruct (load_ok (Packet.data (rxPacket m)) dataSize) as [first H1];
      [lia | ].
    destruct (load_ok (Packet.data (rxPacket m)) (dataSize + 1))
      as [second H2]; [lia | ].
    assert (Hcrc : ModbusRTU_CalculateCRC (Packet.bytes (rxPacket m))
                                          (dataSize + 2)
                   = Some (Reference.crc16_modbus
                             (firstn (N.to_nat (dataSize + 2))
                                     (Packet.bytes (rxPacket m)))))
      by (apply CalculateCRC_fold; unfold Packet.bytes; cbn [length]; lia).
    set (calCrc := Reference.crc16_modbus _) in *.
    destruct (Byte.eqb (Packet.slaveId (rxPacket m)) (slaveId modbus)) eqn:E.
    + apply Byte.byte_dec_bl in E.
      destruct (modbusRTUCheckRxState_decode modbus data dataSize m
                  Hf E Hmax Hwf) as (first' & second' & H1' & H2' & Hcheck).
      rewrite H1 in H1'. rewrite H2 in H2'.
      injection H1' as <-. injection H2' as <-.
      fold calCrc in Hcheck. rewrite memcpy_ok in Hcheck by lia.
      destruct (calCrc =? 256 * u8 first + u8 second) eqn:Ec;
        [apply N.eqb_eq in Ec | apply N.eqb_neq in Ec];
        eexists _, calCrc, first, second;
        (split; [exact Hcheck | ]);
        (split; [exact Hcrc | ]);
        (split; [exact H1 | ]);
        (split; [exact H2 | ]);
        cbn [handle result out isRxDataReceived slaveId];
        rewrite receivedCRC_value; auto 10.
    + apply Byte.eqb_false in E.
      eexists _, calCrc, first, second.
      split; [apply (modbusRTUCheckRxState_wrong_slave _ _ _ _ Hf E) | ].
      split; [exact Hcrc | ].
      split; [exact H1 | ].
      split; [exact H2 | ].
      cbn [handle result out isRxDataReceived slaveId]. auto 10.
  - intros Hf r Hr. unfold modbusRTUCheckRxState in Hr.
    rewrite Hf in Hr. cbn [Bool.eqb] in Hr.
    destruct (negb (Byte.eqb _ _)).
    + injection Hr as <-. cbn [handle result isRxDataReceived]. auto.
    + destruct (ModbusRTU_CalculateCRC _ _) as [calCrc | ]; [ | discriminate].
      destruct (load _ dataSize) as [first | ]; [ | discriminate].
      destruct (load _ _) as [second | ]; [ | discriminate].
      destruct (negb (_ =? _)).
      * injection Hr as <-. cbn [handle result isRxDataReceived]. auto.
      * destruct (memcpy _ _ _) as [data' | ]; [ | discriminate].
        injection Hr as <-. cbn [handle result isRxDataReceived]. auto.
  - apply modbusRTUCheckRxState_busy.
Qed.

Lemma modbusRTUCheckRxState_flag_witness :
  (exists r calCrc first second,
      modbusRTUCheckRxState (mkHandle x02 true) [xff; xff; xff; xff] 4
                            slave_2_answered = Some r
      /\ ModbusRTU_CalculateCRC (Packet.bytes (rxPacket slave_2_answered))
                                (4 + 2) = Some calCrc
      /\ load (Packet.data (rxPacket slave_2_answered)) 4 = Some first
      /\ load (Packet.data (rxPacket slave_2_answered)) (4 + 1) = Some second
      /\ isRxDataReceived (handle r) = false
      /\ result r = MODBUS_RTU_SUCCESS
      /\ calCrc = 0xFEC5
      /\ out r = read_payload)
  /\ (exists r calCrc first second,
         modbusRTUCheckRxState (mkHandle x01 true) [xff; xff; xff; xff] 4
                               read_answered = Some r
         /\ ModbusRTU_CalculateCRC (Packet.bytes (rxPacket read_answered))
                                   (4 + 2) = Some calCrc
         /\ load (Packet.data (rxPacket read_answered)) 4 = Some first
         /\ load (Packet.data (rxPacket read_answered)) (4 + 1) = Some second
         /\ isRxDataReceived (handle r) = false
         /\ result r = MODBUS_RTU_ERROR_CRC
         /\ calCrc <> to_uint16 (N.lor (N.shiftl (u8 first) 8) (u8 second))
         /\ out r = [xff; xff; xff; xff])
  /\ modbusRTUCheckRxState (mkHandle x02 false) [xff; xff; xff; xff] 4
                           slave_2_answered
     = Some (mkCheckRx MODBUS_RTU_RX_BUSY (mkHandle x02 false)
                       [xff; xff; xff; xff]).
Proof.
  split; [ | split].
  - destruct (proj1 (modbusRTUCheckRxState_flag
                       (mkHandle x02 true) [xff; xff; xff; xff] 4
                       slave_2_answered))
      as (r & calCrc & first & second & Hr & Hcrc & H1 & H2 & Hflag & _ & _);
      [ reflexivity | vm_compute; discriminate | vm_compute; discriminate
      | reflexivity | ].
    exists r, calCrc, first, second.
    split; [exact Hr | split; [exact Hcrc | split; [exact H1 | ] ] ].
    split; [exact H2 | split; [exact Hflag | ] ].
    vm_compute in Hr, Hcrc. injection Hr as <-. injection Hcrc as <-.
    repeat split; reflexivity.
  - destruct (proj1 (modbusRTUCheckRxState_flag
                       (mkHandle x01 true) [xff; xff; xff; xff] 4
                       read_answered))
      as (r & calCrc & first & second & Hr & Hcrc & H1 & H2 & Hflag & _ & _);
      [ reflexivity | vm_compute; discriminate | vm_compute; discriminate
      | reflexivity | ].
    exists r, calCrc, first, second.
    split; [exact Hr | split; [exact Hcrc | split; [exact H1 | ] ] ].
    split; [exact H2 | split; [exact Hflag | ] ].
    vm_compute in Hr, Hcrc, H1, H2.
    injection Hr as <-. injection Hcrc as <-.
    injection H1 as <-. injection H2 as <-.
    split; [reflexivity | split; [ | reflexivity] ].
    vm_compute. discriminate.
  - apply (proj2 (proj2 (modbusRTUCheckRxState_flag
                           (mkHandle x02 false) [xff; xff; xff; xff] 4
                           slave_2_answered))).
    reflexivity.
Defined.

(** C10. Whenever [modbusRTUCheckRxState] returns anything but
    [MODBUS_RTU_SUCCESS], the caller's buffer is what it was; and it does
    return (with a payload length within the limits), so the payload is
    copied on the success path only. *)
Theorem modbusRTUCheckRxState_output_untouched modbus data dataSize m :
  (forall r,
      modbusRTUCheckRxState modbus data dataSize m = Some r ->
      result r <> MODBUS_RTU_SUCCESS ->
      out r = data)
  /\ (dataSize <= MODBUS_RTU_MAX_DATA_SIZE ->
      dataSize <= N.of_nat (length data) ->
      Packet.wf (rxPacket m) ->
      exists r, modbusRTUCheckRxState modbus data dataSize m = Some r).
Proof.
  split.
  - intros r Hr Hres. unfold modbusRTUCheckRxState in Hr.
    destruct (Bool.eqb true (isRxDataReceived modbus)).
    + destruct (negb (Byte.eqb _ _)).
      * injection Hr as <-. reflexivity.
      * destruct (ModbusRTU_CalculateCRC _ _) as [calCrc | ]; [ | discriminate].
        destruct (load _ dataSize) as [first | ]; [ | discriminate].
        destruct (load _ _) as [second | ]; [ | discriminate].
        destruct (negb (_ =? _)).
        -- injection Hr as <-. reflexivity.
        -- destruct (memcpy _ _ _) as [data' | ]; [ | discriminate].
           injection Hr as <-. cbn [result] in Hres. contradiction.
    + injection Hr as <-. reflexivity.
  - intros Hmax Hdata Hwf.
    destruct (isRxDataReceived modbus) eqn:Hf.
    + destruct (Byte.eqb (Packet.slaveId (rxPacket m)) (slaveId modbus)) eqn:E.
      * apply Byte.byte_dec_bl in E.
        destruct (modbusRTUCheckRxState_decode modbus data dataSize m
                    Hf E Hmax Hwf) as (first & second & _ & _ & ->).
        unfold Packet.wf, Packet.data_size, MODBUS_RTU_MAX_DATA_SIZE in *.
        rewrite memcpy_ok by lia.
        destruct (_ =? _); eexists; reflexivity.
      * apply Byte.eqb_false in E.
        rewrite (modbusRTUCheckRxState_wrong_slave modbus data dataSize m Hf E).
        eexists; reflexivity.
    + rewrite (modbusRTUCheckRxState_busy modbus data dataSize m Hf).
      eexists; reflexivity.
Qed.

Lemma received_read_frame :
  received read_frame master_1 = Some (mkHandle x01 true, read_answered).
Proof. vm_compute. reflexivity. Qed.

Lemma modbusRTUCheckRxState_output_untouched_witness :
  modbusRTUCheckRxState (mkHandle x01 true) [xff; xff; xff; xff] 4
                        read_answered
  = Some (mkCheckRx MODBUS_RTU_ERROR_CRC (mkHandle x01 false)
                    [xff; xff; xff; xff])
  /\ out (mkCheckRx MODBUS_RTU_ERROR_CRC (mkHandle x01 false)
                    [xff; xff; xff; xff])
     = [xff; xff; xff; xff].
Proof.
  split; [vm_compute; reflexivity | ].
  apply (proj1 (modbusRTUCheckRxState_output_untouched
                  (mkHandle x01 true) [xff; xff; xff; xff] 4 read_answered)).
  - vm_compute. reflexivity.
  - discriminate.
Defined.

(** ** Timeout *)

(** No call of [modbusRTUCheckRxState] returns
    [MODBUS_RTU_ERROR_RX_TIMEOUT]: the branch that would is guarded by the
    constant [false]. *)
Lemma modbusRTUCheckRxState_never_times_out modbus data dataSize m r :
  modbusRTUCheckRxState modbus data dataSize m = Some r ->
  result r <> MODBUS_RTU_ERROR_RX_TIMEOUT.
Proof.
  unfold modbusRTUCheckRxState. intros Hr.
  destruct (Bool.eqb true (isRxDataReceived modbus)).
  - destruct (negb (Byte.eqb _ _)).
    + injection Hr as <-. discriminate.
    + destruct (ModbusRTU_CalculateCRC _ _) as [calCrc | ]; [ | discriminate].
      destruct (load _ dataSize) as [first | ]; [ | discriminate].
      destruct (load _ _) as [second | ]; [ | discriminate].
      destruct (negb (_ =? _)).
      * injection Hr as <-. discriminate.
      * destruct (memcpy _ _ _) as [data' | ]; [ | discriminate].
        injection Hr as <-. discriminate.
  - injection Hr as <-. discriminate.
Qed.

(** The time the timer has counted plays no part in the check. *)
Lemma modbusRTUCheckRxState_time_blind modbus data dataSize m dt :
  modbusRTUCheckRxState modbus data dataSize (time_passes dt m)
  = modbusRTUCheckRxState modbus data dataSize m.
Proof. reflexivity. Qed.

(** C4. (Fails on the code.) The read request is submitted to slave 1 and
    the reception of its answer armed; no completion is ever notified.
    However long the timer has counted since ([dt] time units, beyond
    [MODBUS_RTU_RECEIVED_TIMEOUT] or not), [modbusRTUCheckRxState] returns
    [MODBUS_RTU_RX_BUSY], not [MODBUS_RTU_ERROR_RX_TIMEOUT], with the handle
    and the caller's buffer as they were. *)
Theorem unanswered_request_stays_busy (expected : N) (data : list uint8_t)
    (dt : N) :
  unanswered_request x01 x03 read_payload expected data dt
  = Some (mkCheckRx MODBUS_RTU_RX_BUSY master_1 data).
Proof.
  unfold unanswered_request, modbusRTUInit.
  destruct (modbusRTUSendData _ _ _ _ _ _) as [sent | ] eqn:E.
  - apply modbusRTUCheckRxState_busy. reflexivity.
  - vm_compute in E. discriminate E.
Qed.

(** ** One transaction at a time *)

(** C5, as amended. [modbusRTUSendData] keeps no record of an outstanding
    transaction. After a submit that succeeded, with the reception of its
    answer requested and a check that reported [MODBUS_RTU_RX_BUSY], a
    second submit with a payload of at most 250 bytes succeeds as well: its
    frame is handed to the transport and overwrites the first one in
    [txPacket]. *)
Theorem modbusRTUSendData_while_pending
    modbus m fc1 payload1 expected fc2 payload2 :
  isRxDataReceived modbus = false ->
  Packet.wf (txPacket m) ->
  N.of_nat (length payload1) <= MODBUS_RTU_MAX_DATA_SIZE ->
  N.of_nat (length payload2) <= MODBUS_RTU_MAX_DATA_SIZE ->
  exists m',
    submit_twice modbus m fc1 payload1 expected fc2 payload2
    = Some (MODBUS_RTU_SUCCESS, MODBUS_RTU_RX_BUSY, MODBUS_RTU_SUCCESS, m')
    /\ uart_sent m'
       = Reference.encode (slaveId modbus) fc2 payload2
         :: Reference.encode (slaveId modbus) fc1 payload1 :: uart_sent m
    /\ txPacket m'
       = sent_packet modbus fc2 payload2
                     (sent_packet modbus fc1 payload1 (txPacket m))
    /\ read_bytes (Packet.bytes (txPacket m'))
                  (N.of_nat (length payload2) + 4)
       = Some (Reference.encode (slaveId modbus) fc2 payload2).
Proof.
  intros Hf Hwf H1 H2. unfold submit_twice.
  pose proof (modbusRTUSendData_frame HAL_OK modbus fc1 payload1
                (N.of_nat (length payload1)) m H1 (N.le_refl _) Hwf) as S1.
  cbv zeta in S1. rewrite Nat2N.id, firstn_all in S1. rewrite S1.
  cbn [snd fst HAL_StatusTypeDef_eqb].
  set (m1 := mkMachine _ _ _ _ _ _).
  set (armed := modbusRTUReciveData modbus expected m1).
  assert (Htx : txPacket (snd armed) = txPacket m1
                /\ uart_sent (snd armed) = uart_sent m1).
  { unfold armed, modbusRTUReciveData.
    destruct (MODBUS_RTU_MAX_DATA_SIZE <? expected); split; reflexivity. }
  destruct Htx as [Htx Hsent].
  rewrite (modbusRTUCheckRxState_busy modbus [] 0 (snd armed) Hf).
  cbn [handle result].
  assert (Hwf1 : Packet.wf (txPacket (snd armed))).
  { rewrite Htx. apply sent_packet_wf; assumption. }
  pose proof (modbusRTUSendData_frame HAL_OK modbus fc2 payload2
                (N.of_nat (length payload2)) (snd armed) H2 (N.le_refl _) Hwf1)
    as S2.
  cbv zeta in S2. rewrite Nat2N.id, firstn_all in S2. rewrite S2.
  cbn [snd fst HAL_StatusTypeDef_eqb].
  eexists. split; [reflexivity | ].
  cbn [uart_sent txPacket]. rewrite Hsent, Htx.
  split; [reflexivity | split; [reflexivity | ] ].
  unfold MODBUS_RTU_MAX_DATA_SIZE in *.
  unfold sent_packet at 1, Reference.encode, Packet.bytes. cbv zeta.
  cbn [Packet.slaveId Packet.functionCode Packet.data app].
  rewrite read_bytes_ok
    by (cbn [length]; rewrite length_app; cbn [length]; lia).
  replace (N.to_nat (N.of_nat (length payload2) + 4))
    with (S (S (length payload2 + 2))) by lia.
  cbn [firstn]. rewrite (firstn_app_at payload2 _ _ 2 eq_refl). reflexivity.
Qed.

Lemma modbusRTUSendData_while_pending_witness :
  exists m',
    submit_twice master_1 ready x03 read_payload 4 x06 write_payload
    = Some (MODBUS_RTU_SUCCESS, MODBUS_RTU_RX_BUSY, MODBUS_RTU_SUCCESS, m')
    /\ uart_sent m'
       = Reference.encode (slaveId master_1) x06 write_payload
         :: Reference.encode (slaveId master_1) x03 read_payload
         :: uart_sent ready
    /\ txPacket m'
       = sent_packet master_1 x06 write_payload
                     (sent_packet master_1 x03 read_payload (txPacket ready))
    /\ read_bytes (Packet.bytes (txPacket m'))
                  (N.of_nat (length write_payload) + 4)
       = Some (Reference.encode (slaveId master_1) x06 write_payload).
Proof.
  apply (modbusRTUSendData_while_pending
           master_1 ready x03 read_payload 4 x06 write_payload).
  - reflexivity.
  - reflexivity.
  - vm_compute. discriminate.
  - vm_compute. discriminate.
Defined.

(** C5, as stated, fails: were every submit made while a transaction is
    pending to fail, the write request submitted while the read request is
    unresolved would not return [MODBUS_RTU_SUCCESS]; it does. *)
Lemma submit_while_pending_not_rejected :
  ~ (forall modbus m fc1 payload1 expected fc2 payload2 r m',
        submit_twice modbus m fc1 payload1 expected fc2 payload2
        = Some (MODBUS_RTU_SUCCESS, MODBUS_RTU_RX_BUSY, r, m') ->
        r <> MODBUS_RTU_SUCCESS).
Proof.
  intros H.
  refine (H master_1 ready x03 read_payload 4 x06 write_payload
            MODBUS_RTU_SUCCESS _ _ eq_refl).
  vm_compute. reflexivity.
Qed.

(** The send buffer before and after the second submit. *)
Lemma submit_while_pending_overwrites :
  option_map (fun sent => read_bytes (Packet.bytes (txPacket (snd sent))) 8)
             (modbusRTUSendData HAL_OK master_1 x03 read_payload 4 ready)
  = Some (Some read_frame)
  /\ option_map (fun done => read_bytes (Packet.bytes (txPacket (snd done))) 8)
       (submit_twice master_1 ready x03 read_payload 4 x06 write_payload)
     = Some (Some write_frame).
Proof. split; vm_compute; reflexivity. Qed.

(** * Further properties of the code *)

(** ** [ModbusRTU_CalculateCRC]: bounds *)

Lemma crc_byte_loop_past_the_end (data : list byte) (k : nat) :
  forall (i crc : N),
    (N.to_nat i <= length data < N.to_nat i + k)%nat ->
    crc_byte_loop data i k crc = None.
Proof.
  induction k as [ | k IH]; intros i crc H; [lia | ].
  cbn [crc_byte_loop]. unfold load.
  destruct (nth_error data (N.to_nat i)) as [b | ] eqn:E; [ | reflexivity].
  assert (N.to_nat i < length data)%nat
    by (apply nth_error_Some; rewrite E; discriminate).
  apply IH. lia.
Qed.

(** X1. [ModbusRTU_CalculateCRC] has a result exactly when [length] stays
    within the object [data] points to; a [length] of 0 gives the initial
    value 0xFFFF whatever the bytes; and the result depends on the first
    [length] bytes only. *)
Theorem ModbusRTU_CalculateCRC_bounds (data : list byte) (length : N) :
  (length <= N.of_nat (List.length data)
   <-> exists crc, ModbusRTU_CalculateCRC data length = Some crc)
  /\ ModbusRTU_CalculateCRC data 0 = Some 0xFFFF
  /\ (forall data' : list byte,
         length <= N.of_nat (List.length data) ->
         length <= N.of_nat (List.length data') ->
         firstn (N.to_nat length) data = firstn (N.to_nat length) data' ->
         ModbusRTU_CalculateCRC data length
         = ModbusRTU_CalculateCRC data' length).
Proof.
  split; [ | split].
  - split.
    + intros H. eexists. apply CalculateCRC_fold, H.
    + intros [crc H].
      destruct (N.le_gt_cases length (N.of_nat (List.length data)))
        as [Hle | Hgt]; [exact Hle | ].
      unfold ModbusRTU_CalculateCRC in H.
      rewrite crc_byte_loop_past_the_end in H; [discriminate H | ].
      change (N.to_nat 0) with O. lia.
  - reflexivity.
  - intros data' H H' E.
    rewrite (CalculateCRC_fold data length H),
      (CalculateCRC_fold data' length H'), E.
    reflexivity.
Qed.

Lemma ModbusRTU_CalculateCRC_bounds_witness :
  ModbusRTU_CalculateCRC read_frame 6 = ModbusRTU_CalculateCRC
                                          [x01; x03; x00; x00; x00; x0a] 6
  /\ ~ exists crc, ModbusRTU_CalculateCRC read_frame 9 = Some crc.
Proof.
  split.
  - apply (proj2 (proj2 (ModbusRTU_CalculateCRC_bounds read_frame 6))).
    + vm_compute. discriminate.
    + vm_compute. discriminate.
    + reflexivity.
  - intros H.
    apply (proj1 (ModbusRTU_CalculateCRC_bounds read_frame 9)) in H.
    vm_compute in H. apply H. reflexivity.
Defined.

(** ** [ModbusRTU_CalculateCRC]: a changed byte changes the CRC *)

Lemma testbit_uint16_high (x k : N) :
  is_uint16 x -> 16 <= k -> N.testbit x k = false.
Proof.
  intros H Hk. apply N.bits_above_log2.
  pose proof (log2_uint16 x H). lia.
Qed.

Lemma shift_once_uint16 (x : N) : is_uint16 x -> is_uint16 (Reference.shift_once x).
Proof.
  intros H. rewrite <- (crc_shift_reference x H). apply crc_shift_uint16, H.
Qed.

(** Bit 15 of the shifted accumulator tells whether the polynomial was
    applied, that is, which bit was shifted out. *)
Lemma shift_once_bit15 (x : N) :
  is_uint16 x -> N.testbit (Reference.shift_once x) 15 = N.testbit x 0.
Proof.
  intros H. unfold Reference.shift_once.
  assert (Hs : N.testbit (N.shiftr x 1) 15 = false).
  { rewrite N.shiftr_spec'. apply testbit_uint16_high; [exact H | ]. 
    vm_compute. discriminate. }
  destruct (N.testbit x 0).
  - rewrite N.lxor_spec, Hs. reflexivity.
  - exact Hs.
Qed.

Lemma lxor_cancel_r (a b k : N) : N.lxor a k = N.lxor b k -> a = b.
Proof.
  intros H. apply (f_equal (fun z => N.lxor z k)) in H.
  rewrite !N.lxor_assoc, N.lxor_nilpotent, !N.lxor_0_r in H. exact H.
Qed.

Lemma lxor_cancel_l (a b k : N) : N.lxor k a = N.lxor k b -> a = b.
Proof. rewrite !(N.lxor_comm k). apply lxor_cancel_r. Qed.

Lemma shift_once_inj (x y : N) :
  is_uint16 x -> is_uint16 y ->
  Reference.shift_once x = Reference.shift_once y -> x = y.
Proof.
  intros Hx Hy E.
  assert (Hb : N.testbit x 0 = N.testbit y 0).
  { rewrite <- (shift_once_bit15 x Hx), <- (shift_once_bit15 y Hy), E.
    reflexivity. }
  unfold Reference.shift_once in E. rewrite <- Hb in E.
  assert (Hs : N.shiftr x 1 = N.shiftr y 1).
  { destruct (N.testbit x 0); [apply lxor_cancel_r in E | ]; exact E. }
  rewrite (N.div2_odd x), (N.div2_odd y), !N.div2_spec, Hs.
  rewrite <- !N.bit0_odd, Hb. reflexivity.
Qed.

Lemma iter_shift_once_uint16 (k : nat) (x : N) :
  is_uint16 x -> is_uint16 (Nat.iter k Reference.shift_once x).
Proof.
  intros H. induction k as [ | k IH]; [exact H | ].
  cbn [Nat.iter]. apply shift_once_uint16, IH.
Qed.

Lemma iter_shift_once_inj (k : nat) (x y : N) :
  is_uint16 x -> is_uint16 y ->
  Nat.iter k Reference.shift_once x = Nat.iter k Reference.shift_once y ->
  x = y.
Proof.
  intros Hx Hy. induction k as [ | k IH]; cbn [Nat.iter]; [tauto | ].
  intros E. apply IH. apply shift_once_inj; auto using iter_shift_once_uint16.
Qed.

Lemma absorb_inj_acc (a a' : N) (b : byte) :
  is_uint16 a -> is_uint16 a' ->
  Reference.absorb a b = Reference.absorb a' b -> a = a'.
Proof.
  intros Ha Ha' E. unfold Reference.absorb in E.
  apply iter_shift_once_inj in E;
    [ | apply lxor_uint16; auto using u8_uint16 .. ].
  apply lxor_cancel_r in E. exact E.
Qed.

Lemma absorb_inj_byte (a : N) (b b' : byte) :
  is_uint16 a ->
  Reference.absorb a b = Reference.absorb a b' -> b = b'.
Proof.
  intros Ha E. unfold Reference.absorb in E.
  apply iter_shift_once_inj in E;
    [ | apply lxor_uint16; auto using u8_uint16 .. ].
  apply lxor_cancel_l in E. apply u8_inj, E.
Qed.

Lemma fold_absorb_inj (bs : list byte) (a a' : N) :
  is_uint16 a -> is_uint16 a' ->
  fold_left Reference.absorb bs a = fold_left Reference.absorb bs a' ->
  a = a'.
Proof.
  revert a a'. induction bs as [ | b bs IH]; intros a a' Ha Ha' E.
  - exact E.
  - cbn [fold_left] in E. apply IH in E; auto using absorb_uint16.
    apply absorb_inj_acc in E; assumption.
Qed.

Lemma crc16_modbus_one_byte (pre post : list byte) (b b' : byte) :
  Reference.crc16_modbus (pre ++ b :: post)
  = Reference.crc16_modbus (pre ++ b' :: post) ->
  b = b'.
Proof.
  unfold Reference.crc16_modbus. rewrite !fold_left_app. cbn [fold_left].
  intros E.
  assert (Hp : is_uint16 (fold_left Reference.absorb pre 65535))
    by (apply fold_absorb_uint16; reflexivity).
  apply fold_absorb_inj in E; auto using absorb_uint16.
  apply absorb_inj_byte in E; assumption.
Qed.

Lemma firstn_middle {A : Type} (pre post : list A) (x : A) (n : nat) :
  (length pre < n)%nat ->
  firstn n (pre ++ x :: post)
  = pre ++ x :: firstn (n - S (length pre)) post.
Proof.
  intros H. rewrite firstn_app.
  rewrite firstn_all2 by lia.
  replace (n - length pre)%nat with (S (n - S (length pre))) by lia.
  reflexivity.
Qed.

(** X2. Two buffers that differ in a single byte among the first [length]
    have different CRCs: [ModbusRTU_CalculateCRC] detects every error that
    is confined to one byte. *)
Theorem ModbusRTU_CalculateCRC_detects_byte_change
    (pre post : list byte) (b b' : byte) (length : N) :
  b <> b' ->
  N.of_nat (List.length pre) < length ->
  length <= N.of_nat (List.length (pre ++ b :: post)) ->
  exists crc crc',
    ModbusRTU_CalculateCRC (pre ++ b :: post) length = Some crc
    /\ ModbusRTU_CalculateCRC (pre ++ b' :: post) length = Some crc'
    /\ crc <> crc'.
Proof.
  intros Hb Hpre Hlen.
  assert (Hlen' : length <= N.of_nat (List.length (pre ++ b' :: post))).
  { rewrite length_app in *. cbn [List.length] in *. exact Hlen. }
  rewrite (CalculateCRC_fold _ _ Hlen), (CalculateCRC_fold _ _ Hlen').
  eexists _, _. split; [reflexivity | split; [reflexivity | ] ].
  rewrite !firstn_middle by lia.
  intros E. apply crc16_modbus_one_byte in E. contradiction.
Qed.

Lemma ModbusRTU_CalculateCRC_detects_byte_change_witness :
  exists crc crc',
    ModbusRTU_CalculateCRC ([x01; x03; x00] ++ x00 :: [x00; x0a]) 6 = Some crc
    /\ ModbusRTU_CalculateCRC ([x01; x03; x00] ++ x80 :: [x00; x0a]) 6
       = Some crc'
    /\ crc <> crc'.
Proof.
  apply (ModbusRTU_CalculateCRC_detects_byte_change
           [x01; x03; x00] [x00; x0a] x00 x80 6).
  - discriminate.
  - vm_compute. reflexivity.
  - vm_compute. discriminate.
Defined.

(** ** The frame sent carries its own check *)

Lemma land_shiftl_8 (hi lo : N) : lo < 256 -> N.land (N.shiftl hi 8) lo = 0.
Proof.
  intros Hlo. apply N.bits_inj. intros k. rewrite N.land_spec, N.bits_0.
  destruct (N.lt_ge_cases k 8) as [Hk | Hk].
  - rewrite N.shiftl_spec_low by exact Hk. reflexivity.
  - destruct (N.eq_dec lo 0) as [-> | Hz].
    + rewrite N.bits_0. apply andb_false_r.
    + rewrite (N.bits_above_log2 lo k), andb_false_r; [reflexivity | ].
      assert (N.log2 lo < 8) by (apply N.log2_lt_pow2; [lia | exact Hlo]).
      lia.
Qed.

Lemma lxor_low_byte (crc : N) : N.lxor crc (crc mod 256) = 256 * (crc / 256).
Proof.
  pose proof (N.mod_lt crc 256 ltac:(discriminate)) as Hm.
  pose proof (land_shiftl_8 (crc / 256) (crc mod 256) Hm) as Hd.
  assert (E : crc = N.lxor (N.shiftl (crc / 256) 8) (crc mod 256)).
  { rewrite <- N.add_nocarry_lxor by exact Hd.
    rewrite N.shiftl_mul_pow2. change (2 ^ 8) with 256.
    pose proof (N.Div0.div_mod crc 256). lia. }
  rewrite E at 1.
  rewrite N.lxor_assoc, N.lxor_nilpotent, N.lxor_0_r, N.shiftl_mul_pow2.
  change (2 ^ 8) with 256. lia.
Qed.

Lemma shift_out_low_byte (b : byte) :
  Nat.iter 8 Reference.shift_once (256 * u8 b) = u8 b.
Proof. destruct b; vm_compute; reflexivity. Qed.

Lemma crc16_modbus_residue (body : list byte) :
  let crc := Reference.crc16_modbus body in
  Reference.crc16_modbus
    (body ++ [to_uint8 (crc mod 256); to_uint8 (crc / 256)]) = 0.
Proof.
  intros crc. unfold Reference.crc16_modbus. rewrite fold_left_app.
  fold (Reference.crc16_modbus body). fold crc. cbn [fold_left].
  destruct (crc_split crc (crc16_modbus_uint16 body)) as [Hlo Hhi].
  set (lo := to_uint8 (crc mod 256)) in *.
  set (hi := to_uint8 (crc / 256)) in *.
  unfold Reference.absorb at 2. rewrite Hlo, lxor_low_byte, <- Hhi.
  rewrite shift_out_low_byte.
  unfold Reference.absorb. rewrite N.lxor_nilpotent. reflexivity.
Qed.

(** X3. The CRC of a whole frame built by [modbusRTUSendData], its two
    CRC bytes included, is 0: a receiver can check the frame by running
    [ModbusRTU_CalculateCRC] over all its [dataSize + 4] bytes. *)
Theorem modbusRTUSendData_frame_residue
    hal modbus functionCode data dataSize m :
  dataSize <= MODBUS_RTU_MAX_DATA_SIZE ->
  dataSize <= N.of_nat (length data) ->
  Packet.wf (txPacket m) ->
  exists r m' frame,
    modbusRTUSendData hal modbus functionCode data dataSize m = Some (r, m')
    /\ uart_sent m' = frame :: uart_sent m
    /\ ModbusRTU_CalculateCRC frame (dataSize + 4) = Some 0.
Proof.
  intros Hmax Hdata Hwf.
  pose proof (modbusRTUSendData_frame hal modbus functionCode data dataSize m
                                      Hmax Hdata Hwf) as Hsend.
  cbv zeta in Hsend.
  set (payload := firstn (N.to_nat dataSize) data) in *.
  assert (Hk : length payload = N.to_nat dataSize)
    by (apply firstn_length_le; lia).
  clearbody payload.
  eexists _, _, _. split; [exact Hsend | ]. cbn [uart_sent].
  split; [reflexivity | ].
  assert (Hlen : length (Reference.encode (slaveId modbus) functionCode payload)
                 = N.to_nat (dataSize + 4)).
  { unfold Reference.encode. cbv zeta. cbn [app length].
    rewrite length_app. cbn [length]. lia. }
  rewrite CalculateCRC_fold by lia.
  rewrite <- Hlen, firstn_all. f_equal.
  apply (crc16_modbus_residue (slaveId modbus :: functionCode :: payload)).
Qed.

Lemma modbusRTUSendData_frame_residue_witness :
  exists r m' frame,
    modbusRTUSendData HAL_OK master_1 x06 write_payload 4 ready = Some (r, m')
    /\ uart_sent m' = frame :: uart_sent ready
    /\ ModbusRTU_CalculateCRC frame (4 + 4) = Some 0.
Proof.
  apply (modbusRTUSendData_frame_residue
           HAL_OK master_1 x06 write_payload 4 ready).
  - vm_compute. discriminate.
  - vm_compute. discriminate.
  - reflexivity.
Defined.

(** ** What [modbusRTUSendData] changes *)

Lemma memcpy_some (dst src out : list byte) (n : N) :
  memcpy dst src n = Some out ->
  n <= N.of_nat (length dst) /\ n <= N.of_nat (length src).
Proof.
  unfold memcpy. intros H.
  destruct (n <=? N.of_nat (length dst)) eqn:Hd; [ | discriminate H].
  destruct (n <=? N.of_nat (length src)) eqn:Hs; [ | discriminate H].
  apply N.leb_le in Hd, Hs. split; assumption.
Qed.

Lemma modbusRTUSendData_source_read hal modbus functionCode data dataSize m r m' :
  modbusRTUSendData hal modbus functionCode data dataSize m = Some (r, m') ->
  dataSize <= MODBUS_RTU_MAX_DATA_SIZE ->
  dataSize <= N.of_nat (length data).
Proof.
  unfold modbusRTUSendData. intros H Hmax.
  replace (MODBUS_RTU_MAX_DATA_SIZE <? dataSize) with false in H
    by (symmetry; apply N.ltb_ge; exact Hmax).
  destruct (memcpy _ data dataSize) as [d | ] eqn:E; [ | discriminate H].
  apply memcpy_some in E. tauto.
Qed.

(** X4. Whatever it returns, [modbusRTUSendData] leaves [rxPacket] and the
    armed reception alone, and in [txPacket] it leaves every byte after the
    new frame as the previous frame left it. Above 250 bytes it changes
    nothing at all; otherwise it hands exactly one frame to the transport,
    also when the transport then reports a failure, and the result is
    [MODBUS_RTU_SUCCESS] exactly when the transport reports [HAL_OK]. *)
Theorem modbusRTUSendData_effects
    hal modbus functionCode data dataSize m r m' :
  Packet.wf (txPacket m) ->
  modbusRTUSendData hal modbus functionCode data dataSize m = Some (r, m') ->
  rxPacket m' = rxPacket m
  /\ uart_armed m' = uart_armed m
  /\ skipn (N.to_nat dataSize + 2) (Packet.data (txPacket m'))
     = skipn (N.to_nat dataSize + 2) (Packet.data (txPacket m))
  /\ (MODBUS_RTU_MAX_DATA_SIZE < dataSize ->
      r = MODBUS_RTU_ERROR_INVALID_FRAME /\ m' = m)
  /\ (dataSize <= MODBUS_RTU_MAX_DATA_SIZE ->
      (r = MODBUS_RTU_SUCCESS <-> hal = HAL_OK)
      /\ (r = MODBUS_RTU_ERROR_TX_FAILED <-> hal <> HAL_OK)
      /\ length (uart_sent m') = S (length (uart_sent m))
      /\ firstn (N.to_nat dataSize) (Packet.data (txPacket m'))
         = firstn (N.to_nat dataSize) data).
Proof.
  intros Hwf H.
  destruct (N.lt_ge_cases MODBUS_RTU_MAX_DATA_SIZE dataSize) as [Hgt | Hle].
  - rewrite (modbusRTUSendData_oversized _ _ _ _ _ _ Hgt) in H.
    injection H as <- <-.
    repeat split; try reflexivity; intros; lia.
  - pose proof (modbusRTUSendData_source_read _ _ _ _ _ _ _ _ H Hle) as Hdata.
    rewrite (modbusRTUSendData_frame hal modbus functionCode data dataSize m
               Hle Hdata Hwf) in H.
    injection H as <- <-. cbn [rxPacket uart_armed uart_sent txPacket].
    set (payload := firstn (N.to_nat dataSize) data).
    assert (Hk : length payload = N.to_nat dataSize)
      by (apply firstn_length_le; lia).
    unfold sent_packet. cbv zeta. cbn [Packet.data]. rewrite Hk.
    split; [reflexivity | split; [reflexivity | ] ].
    split.
    { rewrite (skipn_app_at payload _ _ 2 Hk). reflexivity. }
    split; [intros; lia | ]. intros _.
    split; [destruct hal; split; congruence | ].
    split; [destruct hal; split; congruence | ].
    split; [reflexivity | ].
    rewrite (firstn_app_exact payload _ _ Hk). reflexivity.
Qed.

Lemma modbusRTUSendData_effects_witness :
  exists r m',
    modbusRTUSendData HAL_ERROR master_1 x06 write_payload 4 read_answered
    = Some (r, m')
    /\ rxPacket m' = rxPacket read_answered
    /\ r = MODBUS_RTU_ERROR_TX_FAILED
    /\ length (uart_sent m') = 1%nat.
Proof.
  destruct (modbusRTUSendData HAL_ERROR master_1 x06 write_payload 4
                              read_answered) as [ [r m'] | ] eqn:E.
  - exists r, m'.
    destruct (modbusRTUSendData_effects
                HAL_ERROR master_1 x06 write_payload 4 read_answered r m'
                eq_refl E) as (Hrx & _ & _ & _ & Hle).
    destruct (Hle ltac:(vm_compute; discriminate)) as (_ & Htx & Hsent & _).
    split; [reflexivity | split; [exact Hrx | split; [ | exact Hsent] ] ].
    apply Htx. discriminate.
  - vm_compute in E. discriminate E.
Defined.

(** ** Sizes stay within the packets *)

Lemma encode_length (s f : byte) (payload : list byte) :
  length (Reference.encode s f payload) = (length payload + 4)%nat.
Proof.
  unfold Reference.encode. cbv zeta. cbn [app length].
  rewrite length_app. cbn [length]. lia.
Qed.

(** X5. From power-on, and through [modbusRTUInit], [modbusRTUSendData]
    (whatever it returns) and [modbusRTUReciveData], both packets keep their
    252 data bytes, and every reception armed and every frame handed to the
    transport spans between 4 and 254 bytes, the size of a packet: the UART
    is never told to read or write past [txPacket] or [rxPacket]. *)
Theorem within_packet_kept :
  within_packet power_on
  /\ (forall modbus slaveId m,
         within_packet m ->
         within_packet (snd (modbusRTUInit modbus slaveId m)))
  /\ (forall hal modbus functionCode data dataSize m r m',
         within_packet m ->
         modbusRTUSendData hal modbus functionCode data dataSize m
         = Some (r, m') ->
         within_packet m')
  /\ (forall modbus dataSize m,
         within_packet m ->
         within_packet (snd (modbusRTUReciveData modbus dataSize m))).
Proof.
  split; [ | split; [ | split] ].
  - split; [split; reflexivity | ]. split; [discriminate | constructor].
  - intros modbus s m H. exact H.
  - intros hal modbus functionCode data dataSize m r m' [ [Htx Hrx] [Ha Hs] ] H.
    destruct (N.lt_ge_cases MODBUS_RTU_MAX_DATA_SIZE dataSize) as [Hgt | Hle].
    + rewrite (modbusRTUSendData_oversized _ _ _ _ _ _ Hgt) in H.
      injection H as <- <-.
      split; [split; assumption | split; assumption].
    + pose proof (modbusRTUSendData_source_read _ _ _ _ _ _ _ _ H Hle)
        as Hdata.
      rewrite (modbusRTUSendData_frame hal modbus functionCode data dataSize m
                 Hle Hdata Htx) in H.
      injection H as <- <-.
      assert (Hk : length (firstn (N.to_nat dataSize) data)
                   = N.to_nat dataSize)
        by (apply firstn_length_le; lia).
      unfold MODBUS_RTU_MAX_DATA_SIZE in Hle.
      split; [split | split]; cbn [txPacket rxPacket uart_armed uart_sent].
      * apply sent_packet_wf; [exact Htx | ].
        unfold MODBUS_RTU_MAX_DATA_SIZE. lia.
      * exact Hrx.
      * exact Ha.
      * constructor; [ | exact Hs]. rewrite encode_length. lia.
  - intros modbus dataSize m [Hwf [Ha Hs] ]. unfold modbusRTUReciveData.
    destruct (MODBUS_RTU_MAX_DATA_SIZE <? dataSize) eqn:E.
    + split; [exact Hwf | split; assumption].
    + apply N.ltb_ge in E. unfold MODBUS_RTU_MAX_DATA_SIZE in E.
      split; [exact Hwf | split; [ | exact Hs] ].
      cbn [snd HAL_UART_Receive_IT uart_armed]. intros k Hk.
      injection Hk as <-. rewrite to_size_t_small by lia. lia.
Qed.

Lemma within_packet_kept_witness :
  within_packet
    (snd (modbusRTUReciveData master_1 250
            (snd (modbusRTUInit master_1 x01 power_on)))).
Proof.
  destruct within_packet_kept as (H0 & Hinit & _ & Hrecv).
  apply Hrecv, Hinit, H0.
Defined.

(** ** What a check leaves behind *)

Lemma memcpy_length (dst src out : list byte) (n : N) :
  memcpy dst src n = Some out ->
  length out = length dst
  /\ skipn (N.to_nat n) out = skipn (N.to_nat n) dst.
Proof.
  intros H. destruct (memcpy_some _ _ _ _ H) as [Hd Hs].
  rewrite (memcpy_ok _ _ _ Hd Hs) in H. injection H as <-.
  assert (Hk : length (firstn (N.to_nat n) src) = N.to_nat n)
    by (apply firstn_length_le; lia).
  split.
  - rewrite length_app, length_skipn. lia.
  - apply skipn_app_exact, Hk.
Qed.

(** X6. A call of [modbusRTUCheckRxState] that returns leaves the flag
    clear and the slave id as it was; its result is [MODBUS_RTU_RX_BUSY]
    exactly when the flag was clear, and otherwise one of
    [MODBUS_RTU_SUCCESS], [MODBUS_RTU_ERROR_CRC] and
    [MODBUS_RTU_ERROR_INVALID_SLAVE_ID]; the caller's buffer keeps its
    length and every byte from index [dataSize] on. *)
Theorem modbusRTUCheckRxState_returns modbus data dataSize m r :
  modbusRTUCheckRxState modbus data dataSize m = Some r ->
  isRxDataReceived (handle r) = false
  /\ slaveId (handle r) = slaveId modbus
  /\ (result r = MODBUS_RTU_RX_BUSY <-> isRxDataReceived modbus = false)
  /\ (isRxDataReceived modbus = true ->
      result r = MODBUS_RTU_SUCCESS
      \/ result r = MODBUS_RTU_ERROR_CRC
      \/ result r = MODBUS_RTU_ERROR_INVALID_SLAVE_ID)
  /\ length (out r) = length data
  /\ skipn (N.to_nat dataSize) (out r) = skipn (N.to_nat dataSize) data.
Proof.
  unfold modbusRTUCheckRxState. intros Hr.
  destruct (isRxDataReceived modbus) eqn:Hf; cbn [Bool.eqb] in Hr.
  - destruct (negb (Byte.eqb _ _)).
    + injection Hr as <-. cbn. intuition discriminate.
    + destruct (ModbusRTU_CalculateCRC _ _) as [calCrc | ]; [ | discriminate].
      destruct (load _ dataSize) as [first | ]; [ | discriminate].
      destruct (load _ _) as [second | ]; [ | discriminate].
      destruct (negb (_ =? _)).
      * injection Hr as <-. cbn. intuition discriminate.
      * destruct (memcpy _ _ _) as [data' | ] eqn:E; [ | discriminate].
        injection Hr as <-. apply memcpy_length in E. cbn.
        intuition discriminate.
  - injection Hr as <-. cbn [handle result out]. rewrite Hf.
    intuition discriminate.
Qed.

Lemma modbusRTUCheckRxState_returns_witness :
  isRxDataReceived (mkHandle x02 false) = false
  /\ length read_payload = length [xff; xff; xff; xff].
Proof.
  destruct (modbusRTUCheckRxState_returns
              (mkHandle x02 true) [xff; xff; xff; xff] 4 slave_2_answered
              (mkCheckRx MODBUS_RTU_SUCCESS (mkHandle x02 false) read_payload))
    as (Hflag & _ & _ & _ & Hlen & _).
  - vm_compute. reflexivity.
  - split; [exact Hflag | exact Hlen].
Defined.

Lemma modbusRTUCheckRxState_clears_flag modbus data dataSize m r :
  modbusRTUCheckRxState modbus data dataSize m = Some r ->
  isRxDataReceived (handle r) = false.
Proof.
  unfold modbusRTUCheckRxState. intros Hr.
  destruct (isRxDataReceived modbus) eqn:Hf; cbn [Bool.eqb] in Hr.
  - destruct (negb (Byte.eqb _ _)).
    + injection Hr as <-. reflexivity.
    + destruct (ModbusRTU_CalculateCRC _ _) as [calCrc | ]; [ | discriminate].
      destruct (load _ dataSize) as [first | ]; [ | discriminate].
      destruct (load _ _) as [second | ]; [ | discriminate].
      destruct (negb (_ =? _)).
      * injection Hr as <-. reflexivity.
      * destruct (memcpy _ _ _) as [data' | ]; [ | discriminate].
        injection Hr as <-. reflexivity.
  - injection Hr as <-. exact Hf.
Qed.

(** X7. A received frame is judged once: after any call of
    [modbusRTUCheckRxState] that returned, a further call on the handle and
    buffer it left, with any [dataSize], returns [MODBUS_RTU_RX_BUSY] and
    changes nothing, until the flag is set again. *)
Theorem modbusRTUCheckRxState_once modbus data dataSize m r dataSize' :
  modbusRTUCheckRxState modbus data dataSize m = Some r ->
  modbusRTUCheckRxState (handle r) (out r) dataSize' m
  = Some (mkCheckRx MODBUS_RTU_RX_BUSY (handle r) (out r)).
Proof.
  intros Hr. apply modbusRTUCheckRxState_busy.
  apply (modbusRTUCheckRxState_clears_flag _ _ _ _ _ Hr).
Qed.

Lemma modbusRTUCheckRxState_once_witness :
  modbusRTUCheckRxState (mkHandle x02 false) read_payload 7 slave_2_answered
  = Some (mkCheckRx MODBUS_RTU_RX_BUSY (mkHandle x02 false) read_payload).
Proof.
  apply (modbusRTUCheckRxState_once
           (mkHandle x02 true) [xff; xff; xff; xff] 4 slave_2_answered
           (mkCheckRx MODBUS_RTU_SUCCESS (mkHandle x02 false) read_payload) 7).
  vm_compute. reflexivity.
Defined.

(** ** A check sees only the handle and [rxPacket] *)

Lemma modbusRTUCheckRxState_rxPacket modbus data dataSize m m' :
  rxPacket m' = rxPacket m ->
  modbusRTUCheckRxState modbus data dataSize m'
  = modbusRTUCheckRxState modbus data dataSize m.
Proof. intros H. unfold modbusRTUCheckRxState. rewrite H. reflexivity. Qed.

Lemma modbusRTUSendData_rxPacket hal modbus functionCode data dataSize m r m' :
  modbusRTUSendData hal modbus functionCode data dataSize m = Some (r, m') ->
  rxPacket m' = rxPacket m.
Proof.
  unfold modbusRTUSendData. intros H.
  destruct (MODBUS_RTU_MAX_DATA_SIZE <? dataSize).
  - injection H as <- <-. reflexivity.
  - destruct (memcpy _ _ _) as [d | ]; [ | discriminate].
    destruct (ModbusRTU_CalculateCRC _ _) as [calCrc | ]; [ | discriminate].
    destruct (store _ dataSize _) as [d0 | ]; [ | discriminate].
    destruct (store _ _ _) as [d1 | ]; [ | discriminate].
    unfold HAL_UART_Transmit in H.
    destruct (read_bytes _ _) as [frame | ]; [ | discriminate].
    destruct (negb _); injection H as <- <-; reflexivity.
Qed.

(** X8. Submitting a request or arming a reception resets nothing the
    check looks at: with the same handle, [modbusRTUCheckRxState] gives
    after a [modbusRTUSendData] or a [modbusRTUReciveData] exactly what it
    would have given before. A flag left set by an earlier answer makes the
    check judge that earlier answer. *)
Theorem modbusRTUCheckRxState_after_request modbus data dataSize m :
  (forall hal modbus' functionCode payload size r m',
      modbusRTUSendData hal modbus' functionCode payload size m
      = Some (r, m') ->
      modbusRTUCheckRxState modbus data dataSize m'
      = modbusRTUCheckRxState modbus data dataSize m)
  /\ (forall modbus' size,
         modbusRTUCheckRxState modbus data dataSize
                               (snd (modbusRTUReciveData modbus' size m))
         = modbusRTUCheckRxState modbus data dataSize m).
Proof.
  split.
  - intros hal modbus' functionCode payload size r m' H.
    apply modbusRTUCheckRxState_rxPacket.
    apply (modbusRTUSendData_rxPacket _ _ _ _ _ _ _ _ H).
  - intros modbus' size. apply modbusRTUCheckRxState_rxPacket.
    unfold modbusRTUReciveData.
    destruct (MODBUS_RTU_MAX_DATA_SIZE <? size); reflexivity.
Qed.

Lemma modbusRTUCheckRxState_after_request_witness :
  match modbusRTUSendData HAL_OK (mkHandle x02 true) x06 write_payload 4
                          slave_2_answered with
  | Some (_, m') =>
      modbusRTUCheckRxState (mkHandle x02 true) [xff; xff; xff; xff] 4 m'
      = modbusRTUCheckRxState (mkHandle x02 true) [xff; xff; xff; xff] 4
                              slave_2_answered
  | None => False
  end.
Proof.
  destruct (modbusRTUSendData HAL_OK (mkHandle x02 true) x06 write_payload 4
                              slave_2_answered) as [ [r m'] | ] eqn:E.
  - apply (proj1 (modbusRTUCheckRxState_after_request
                    (mkHandle x02 true) [xff; xff; xff; xff] 4
                    slave_2_answered) _ _ _ _ _ _ _ E).
  - vm_compute in E. discriminate E.
Defined.

(** ** No size check in [modbusRTUCheckRxState] *)

(** X9. Unlike the two other functions, [modbusRTUCheckRxState] does not
    compare [dataSize] with [MODBUS_RTU_MAX_DATA_SIZE]. With the flag set
    and the slave id matching, every [dataSize] above 250 makes it read
    [rxPacket.data] at index 252 or beyond, outside the array: the call has
    no defined result. *)
Theorem modbusRTUCheckRxState_oversized modbus data dataSize m :
  isRxDataReceived modbus = true ->
  Packet.slaveId (rxPacket m) = slaveId modbus ->
  Packet.wf (rxPacket m) ->
  MODBUS_RTU_MAX_DATA_SIZE < dataSize < 4294967296 ->
  modbusRTUCheckRxState modbus data dataSize m = None.
Proof.
  unfold Packet.wf, Packet.data_size, MODBUS_RTU_MAX_DATA_SIZE.
  intros Hf Hs Hwf [Hlo Hhi]. unfold modbusRTUCheckRxState.
  rewrite Hf, Hs, byte_eqb_refl. cbn [Bool.eqb negb].
  destruct (ModbusRTU_CalculateCRC _ _) as [calCrc | ]; [ | reflexivity].
  destruct (load (Packet.data (rxPacket m)) dataSize) as [first | ] eqn:E1;
    [ | reflexivity].
  assert (Hn : dataSize = 251).
  { unfold load in E1.
    assert (N.to_nat dataSize < length (Packet.data (rxPacket m)))%nat
      by (apply nth_error_Some; rewrite E1; discriminate).
    lia. }
  subst dataSize. change (to_size_t (251 + 1)) with 252.
  replace (load (Packet.data (rxPacket m)) 252) with (@None byte);
    [reflexivity | ].
  symmetry. unfold load. apply nth_error_None. lia.
Qed.

Lemma modbusRTUCheckRxState_oversized_witness :
  modbusRTUCheckRxState (mkHandle x02 true) (repeat xff 251) 251
                        slave_2_answered = None.
Proof.
  apply (modbusRTUCheckRxState_oversized
           (mkHandle x02 true) (repeat xff 251) 251 slave_2_answered).
  - reflexivity.
  - reflexivity.
  - reflexivity.
  - split; vm_compute; reflexivity.
Defined.

(** ** [modbusRTUInit] *)

(** X10. [modbusRTUInit] sets the slave id and starts the timer but does
    not assign the flag: the first check after it returns
    [MODBUS_RTU_RX_BUSY] exactly when the flag of the caller's structure
    happened to be clear before, and it compares the received slave id with
    the one given to [modbusRTUInit]. *)
Theorem modbusRTUInit_then_check modbus slaveId0 m data dataSize r :
  modbusRTUCheckRxState (fst (modbusRTUInit modbus slaveId0 m)) data dataSize
                        (snd (modbusRTUInit modbus slaveId0 m)) = Some r ->
  tim_started (snd (modbusRTUInit modbus slaveId0 m)) = true
  /\ (result r = MODBUS_RTU_RX_BUSY <-> isRxDataReceived modbus = false)
  /\ (isRxDataReceived modbus = true ->
      (result r = MODBUS_RTU_ERROR_INVALID_SLAVE_ID
       <-> Packet.slaveId (rxPacket m) <> slaveId0)).
Proof.
  unfold modbusRTUInit, modbusRTUCheckRxState.
  cbn [fst snd isRxDataReceived slaveId HAL_TIM_Base_Start_IT rxPacket
       tim_started].
  intros Hr. split; [reflexivity | ].
  destruct (isRxDataReceived modbus) eqn:Hf; cbn [Bool.eqb] in Hr.
  - destruct (Byte.eqb (Packet.slaveId (rxPacket m)) slaveId0) eqn:E;
      cbn [negb] in Hr.
    + apply Byte.byte_dec_bl in E.
      destruct (ModbusRTU_CalculateCRC _ _) as [calCrc | ]; [ | discriminate].
      destruct (load _ dataSize) as [first | ]; [ | discriminate].
      destruct (load _ _) as [second | ]; [ | discriminate].
      destruct (negb (_ =? _)).
      * injection Hr as <-. cbn. intuition (discriminate || congruence).
      * destruct (memcpy _ _ _) as [data' | ]; [ | discriminate].
        injection Hr as <-. cbn. intuition (discriminate || congruence).
    + apply Byte.eqb_false in E. injection Hr as <-. cbn.
      intuition (discriminate || congruence).
  - injection Hr as <-. cbn. intuition (discriminate || congruence).
Qed.

Lemma modbusRTUInit_then_check_witness :
  tim_started (snd (modbusRTUInit (mkHandle x00 true) x01 power_on)) = true
  /\ (MODBUS_RTU_ERROR_INVALID_SLAVE_ID = MODBUS_RTU_RX_BUSY
      <-> isRxDataReceived (mkHandle x00 true) = false)
  /\ (isRxDataReceived (mkHandle x00 true) = true ->
      (MODBUS_RTU_ERROR_INVALID_SLAVE_ID = MODBUS_RTU_ERROR_INVALID_SLAVE_ID
       <-> Packet.slaveId (rxPacket power_on) <> x01)).
Proof.
  apply (modbusRTUInit_then_check
           (mkHandle x00 true) x01 power_on [xff] 1
           (mkCheckRx MODBUS_RTU_ERROR_INVALID_SLAVE_ID
                      (mkHandle x01 false) [xff])).
  vm_compute. reflexivity.
Defined.

(** ** What [modbusRTUCheckRxState] accepts *)

(** X11. With the flag set and [dataSize <= 250], the verdict of
    [modbusRTUCheckRxState] is decided by the slave id and by comparing the
    CRC of the first [dataSize + 2] bytes of [rxPacket] with
    [256 * data[dataSize] + data[dataSize + 1]]: [MODBUS_RTU_SUCCESS] when
    both agree, [MODBUS_RTU_ERROR_CRC] when only the slave id does,
    [MODBUS_RTU_ERROR_INVALID_SLAVE_ID] when the slave id differs. *)
Theorem modbusRTUCheckRxState_verdict modbus data dataSize m :
  isRxDataReceived modbus = true ->
  dataSize <= MODBUS_RTU_MAX_DATA_SIZE ->
  dataSize <= N.of_nat (length data) ->
  Packet.wf (rxPacket m) ->
  exists r crc first second,
    modbusRTUCheckRxState modbus data dataSize m = Some r
    /\ ModbusRTU_CalculateCRC (Packet.bytes (rxPacket m)) (dataSize + 2)
       = Some crc
    /\ load (Packet.data (rxPacket m)) dataSize = Some first
    /\ load (Packet.data (rxPacket m)) (dataSize + 1) = Some second
    /\ (result r = MODBUS_RTU_SUCCESS
        <-> Packet.slaveId (rxPacket m) = slaveId modbus
            /\ crc = 256 * u8 first + u8 second)
    /\ (result r = MODBUS_RTU_ERROR_CRC
        <-> Packet.slaveId (rxPacket m) = slaveId modbus
            /\ crc <> 256 * u8 first + u8 second)
    /\ (result r = MODBUS_RTU_ERROR_INVALID_SLAVE_ID
        <-> Packet.slaveId (rxPacket m) <> slaveId modbus).
Proof.
  intros Hf Hmax Hdata Hwf.
  assert (Hwf' := Hwf). assert (Hmax' := Hmax).
  unfold Packet.wf, Packet.data_size, MODBUS_RTU_MAX_DATA_SIZE in Hwf', Hmax'.
  destruct (load_ok (Packet.data (rxPacket m)) dataSize) as [first H1];
    [lia | ].
  destruct (load_ok (Packet.data (rxPacket m)) (dataSize + 1)) as [second H2];
    [lia | ].
  assert (Hcrc : ModbusRTU_CalculateCRC (Packet.bytes (rxPacket m))
                                        (dataSize + 2)
                 = Some (Reference.crc16_modbus
                           (firstn (N.to_nat (dataSize + 2))
                                   (Packet.bytes (rxPacket m)))))
    by (apply CalculateCRC_fold; unfold Packet.bytes; cbn [length]; lia).
  set (crc := Reference.crc16_modbus _) in *.
  destruct (Byte.eqb (Packet.slaveId (rxPacket m)) (slaveId modbus)) eqn:E.
  - apply Byte.byte_dec_bl in E.
    destruct (modbusRTUCheckRxState_decode modbus data dataSize m
                Hf E Hmax Hwf) as (first' & second' & H1' & H2' & Hcheck).
    rewrite H1 in H1'. rewrite H2 in H2'.
    injection H1' as <-. injection H2' as <-.
    fold crc in Hcheck. rewrite memcpy_ok in Hcheck by lia.
    destruct (crc =? 256 * u8 first + u8 second) eqn:Ec;
      [apply N.eqb_eq in Ec | apply N.eqb_neq in Ec];
      eexists _, crc, first, second;
      (split; [exact Hcheck | ]);
      (split; [exact Hcrc | ]);
      (split; [exact H1 | ]);
      (split; [exact H2 | ]);
      cbn [result]; intuition (discriminate || congruence).
  - apply Byte.eqb_false in E.
    eexists _, crc, first, second.
    split; [apply (modbusRTUCheckRxState_wrong_slave _ _ _ _ Hf E) | ].
    split; [exact Hcrc | ].
    split; [exact H1 | ].
    split; [exact H2 | ].
    cbn [result]. intuition (discriminate || congruence).
Qed.

Lemma modbusRTUCheckRxState_verdict_witness :
  exists r crc first second,
    modbusRTUCheckRxState (mkHandle x01 true) [xff; xff; xff; xff] 4
                          read_answered = Some r
    /\ ModbusRTU_CalculateCRC (Packet.bytes (rxPacket read_answered)) (4 + 2)
       = Some crc
    /\ load (Packet.data (rxPacket read_answered)) 4 = Some first
    /\ load (Packet.data (rxPacket read_answered)) (4 + 1) = Some second
    /\ (result r = MODBUS_RTU_SUCCESS
        <-> Packet.slaveId (rxPacket read_answered) = x01
            /\ crc = 256 * u8 first + u8 second)
    /\ (result r = MODBUS_RTU_ERROR_CRC
        <-> Packet.slaveId (rxPacket read_answered) = x01
            /\ crc <> 256 * u8 first + u8 second)
    /\ (result r = MODBUS_RTU_ERROR_INVALID_SLAVE_ID
        <-> Packet.slaveId (rxPacket read_answered) <> x01).
Proof.
  apply (modbusRTUCheckRxState_verdict
           (mkHandle x01 true) [xff; xff; xff; xff] 4 read_answered).
  - reflexivity.
  - vm_compute. discriminate.
  - vm_compute. discriminate.
  - reflexivity.
Defined.

(** X12. A response whose CRC bytes come high byte first is accepted: when
    [rxPacket] holds the handle's slave id, a function code, a payload of
    [dataSize] bytes and then the high and the low byte of the CRC of what
    precedes, the check returns [MODBUS_RTU_SUCCESS], copies exactly the
    payload to the start of the caller's buffer and clears the flag. *)
Theorem modbusRTUCheckRxState_high_byte_first
    modbus functionCode payload rest data m crc :
  isRxDataReceived modbus = true ->
  ModbusRTU_CalculateCRC (slaveId modbus :: functionCode :: payload)
                         (N.of_nat (length payload) + 2) = Some crc ->
  rxPacket m
  = Packet.mk (slaveId modbus) functionCode
              (payload ++ to_uint8 (crc / 256) :: to_uint8 (crc mod 256)
                       :: rest) ->
  Packet.wf (rxPacket m) ->
  (length payload <= length data)%nat ->
  modbusRTUCheckRxState modbus data (N.of_nat (length payload)) m
  = Some (mkCheckRx MODBUS_RTU_SUCCESS (mkHandle (slaveId modbus) false)
                    (payload ++ skipn (length payload) data)).
Proof.
  intros Hf Hcrc Hrx Hwf Hdata.
  assert (Hmax : N.of_nat (length payload) <= MODBUS_RTU_MAX_DATA_SIZE).
  { unfold Packet.wf, Packet.data_size, MODBUS_RTU_MAX_DATA_SIZE in *.
    rewrite Hrx in Hwf. cbn [Packet.data] in Hwf.
    rewrite length_app in Hwf. cbn [length] in Hwf. lia. }
  rewrite CalculateCRC_fold in Hcrc by (cbn [length]; lia).
  replace (N.to_nat (N.of_nat (length payload) + 2))
    with (S (S (length payload))) in Hcrc by lia.
  cbn [firstn] in Hcrc. rewrite firstn_all in Hcrc. injection Hcrc as Hcrc.
  destruct (modbusRTUCheckRxState_decode modbus data
              (N.of_nat (length payload)) m Hf)
    as (first & second & H1 & H2 & Hcheck);
    [rewrite Hrx; reflexivity | exact Hmax | exact Hwf | ].
  rewrite Hcheck. clear Hcheck. rewrite Hrx in *.
  unfold Packet.bytes. cbn [Packet.data Packet.slaveId Packet.functionCode] in *.
  unfold load in H1, H2.
  replace (N.to_nat (N.of_nat (length payload) + 1)) with (S (length payload))
    in H2 by lia.
  rewrite Nat2N.id in H1.
  rewrite nth_error_app2 in H1, H2 by lia.
  rewrite Nat.sub_diag in H1.
  replace (S (length payload) - length payload)%nat with 1%nat in H2 by lia.
  cbn in H1, H2. injection H1 as <-. injection H2 as <-.
  replace (N.to_nat (N.of_nat (length payload) + 2))
    with (S (S (length payload))) by lia.
  cbn [firstn]. rewrite (firstn_app_exact payload _ _ eq_refl), Hcrc.
  assert (Hu : is_uint16 crc) by (rewrite <- Hcrc; apply crc16_modbus_uint16).
  destruct (crc_split crc Hu) as [Hlo Hhi]. rewrite Hlo, Hhi.
  replace (crc =? 256 * (crc / 256) + crc mod 256) with true
    by (symmetry; apply N.eqb_eq, N.Div0.div_mod).
  rewrite memcpy_ok; [ | lia | rewrite length_app; lia].
  rewrite Nat2N.id, (firstn_app_exact payload _ _ eq_refl). reflexivity.
Qed.

Lemma modbusRTUCheckRxState_high_byte_first_witness :
  modbusRTUCheckRxState (mkHandle x02 true) [xff; xff; xff; xff; xff]
                        (N.of_nat (length read_payload)) slave_2_answered
  = Some (mkCheckRx MODBUS_RTU_SUCCESS (mkHandle x02 false)
                    (read_payload ++ [xff])).
Proof.
  apply (modbusRTUCheckRxState_high_byte_first
           (mkHandle x02 true) x03 read_payload (repeat x00 246)
           [xff; xff; xff; xff; xff] slave_2_answered 0xFEC5).
  - reflexivity.
  - vm_compute. reflexivity.
  - vm_compute. reflexivity.
  - reflexivity.
  - vm_compute. lia.
Defined.

(** ** A changed byte is caught by the check *)

Lemma nth_error_past_middle {A : Type} (pre post : list A) (x : A) (j : nat) :
  (length pre < j)%nat ->
  nth_error (pre ++ x :: post) j = nth_error post (j - S (length pre)).
Proof.
  intros H. rewrite nth_error_app2 by lia.
  replace (j - length pre)%nat with (S (j - S (length pre))) by lia.
  reflexivity.
Qed.

(** X13. If [modbusRTUCheckRxState] accepts the receive buffer, it rejects
    with [MODBUS_RTU_ERROR_CRC], leaving the caller's buffer untouched, the
    same buffer with any one byte of the function code or of the payload
    changed. *)
Theorem modbusRTUCheckRxState_detects_changed_byte
    modbus data dataSize m m' pre post b b' r :
  Packet.bytes (rxPacket m) = pre ++ b :: post ->
  Packet.bytes (rxPacket m') = pre ++ b' :: post ->
  b <> b' ->
  (1 <= length pre)%nat ->
  N.of_nat (length pre) < dataSize + 2 ->
  dataSize <= MODBUS_RTU_MAX_DATA_SIZE ->
  Packet.wf (rxPacket m) ->
  modbusRTUCheckRxState modbus data dataSize m = Some r ->
  result r = MODBUS_RTU_SUCCESS ->
  modbusRTUCheckRxState modbus data dataSize m'
  = Some (mkCheckRx MODBUS_RTU_ERROR_CRC (mkHandle (slaveId modbus) false)
                    data).
Proof.
  intros Hm Hm' Hb Hpre Hpos Hmax Hwf Hr Hres.
  assert (Hf : isRxDataReceived modbus = true).
  { destruct (isRxDataReceived modbus) eqn:Hf; [reflexivity | ].
    rewrite (modbusRTUCheckRxState_busy _ _ _ _ Hf) in Hr.
    injection Hr as <-. discriminate Hres. }
  assert (Hs : Packet.slaveId (rxPacket m) = slaveId modbus).
  { destruct (Byte.eqb (Packet.slaveId (rxPacket m)) (slaveId modbus)) eqn:E.
    - apply Byte.byte_dec_bl, E.
    - apply Byte.eqb_false in E.
      rewrite (modbusRTUCheckRxState_wrong_slave _ _ _ _ Hf E) in Hr.
      injection Hr as <-. discriminate Hres. }
  assert (Hs' : Packet.slaveId (rxPacket m') = slaveId modbus).
  { rewrite <- Hs. unfold Packet.bytes in Hm, Hm'.
    destruct pre as [ | p0 pre0]; [cbn in Hpre; lia | ].
    cbn [app] in Hm, Hm'. congruence. }
  assert (Hwf' : Packet.wf (rxPacket m')).
  { unfold Packet.wf in *.
    apply (f_equal (@length _)) in Hm, Hm'. unfold Packet.bytes in Hm, Hm'.
    rewrite length_app in Hm, Hm'. cbn [length] in Hm, Hm'. lia. }
  assert (Hload : forall i,
             dataSize <= i ->
             load (Packet.data (rxPacket m')) i
             = load (Packet.data (rxPacket m)) i).
  { intros i Hi. unfold load.
    change (nth_error (Packet.data (rxPacket m')) (N.to_nat i))
      with (nth_error (Packet.bytes (rxPacket m')) (S (S (N.to_nat i)))).
    change (nth_error (Packet.data (rxPacket m)) (N.to_nat i))
      with (nth_error (Packet.bytes (rxPacket m)) (S (S (N.to_nat i)))).
    rewrite Hm, Hm', !nth_error_past_middle by lia. reflexivity. }
  destruct (modbusRTUCheckRxState_decode modbus data dataSize m
              Hf Hs Hmax Hwf) as (first & second & H1 & H2 & Hcheck).
  destruct (modbusRTUCheckRxState_decode modbus data dataSize m'
              Hf Hs' Hmax Hwf') as (first' & second' & H1' & H2' & Hcheck').
  rewrite Hload, H1 in H1' by lia. rewrite Hload, H2 in H2' by lia.
  injection H1' as <-. injection H2' as <-.
  rewrite Hcheck' . clear Hcheck'. rewrite Hcheck in Hr. clear Hcheck.
  rewrite Hm in Hr. rewrite Hm'.
  unfold MODBUS_RTU_MAX_DATA_SIZE in Hmax.
  rewrite firstn_middle in * by lia.
  destruct (_ =? _) eqn:Ec in Hr.
  2:{ injection Hr as <-. discriminate Hres. }
  apply N.eqb_eq in Ec.
  destruct (_ =? _) eqn:Ec'; [ | reflexivity].
  apply N.eqb_eq in Ec'. rewrite <- Ec in Ec'.
  apply crc16_modbus_one_byte in Ec'. congruence.
Qed.

Lemma modbusRTUCheckRxState_detects_changed_byte_witness :
  modbusRTUCheckRxState (mkHandle x02 true) [xff; xff; xff; xff] 4
    (mkMachine Packet.zero
               (Packet.mk x02 x03
                          ([x00; x00; x00; x0b; xfe; xc5] ++ repeat x00 246))
               [] None true 0)
  = Some (mkCheckRx MODBUS_RTU_ERROR_CRC (mkHandle x02 false)
                    [xff; xff; xff; xff]).
Proof.
  apply (modbusRTUCheckRxState_detects_changed_byte
           (mkHandle x02 true) [xff; xff; xff; xff] 4 slave_2_answered
           (mkMachine Packet.zero
               (Packet.mk x02 x03
                          ([x00; x00; x00; x0b; xfe; xc5] ++ repeat x00 246))
               [] None true 0)
           [x02; x03; x00; x00; x00] ([xfe; xc5] ++ repeat x00 246) x0a x0b
           (mkCheckRx MODBUS_RTU_SUCCESS (mkHandle x02 false) read_payload)).
  - reflexivity.
  - reflexivity.
  - discriminate.
  - vm_compute. lia.
  - vm_compute. reflexivity.
  - vm_compute. discriminate.
  - reflexivity.
  - vm_compute. reflexivity.
  - reflexivity.
Defined.

(** X14. The same holds for the two CRC bytes: if
    [modbusRTUCheckRxState] accepts the receive buffer, it rejects with
    [MODBUS_RTU_ERROR_CRC] the same buffer with either of the two bytes at
    [data[dataSize]] and [data[dataSize + 1]] changed. *)
Theorem modbusRTUCheckRxState_detects_changed_crc_byte
    modbus data dataSize m m' pre post b b' r :
  Packet.bytes (rxPacket m) = pre ++ b :: post ->
  Packet.bytes (rxPacket m') = pre ++ b' :: post ->
  b <> b' ->
  dataSize + 2 <= N.of_nat (length pre) < dataSize + 4 ->
  dataSize <= MODBUS_RTU_MAX_DATA_SIZE ->
  Packet.wf (rxPacket m) ->
  modbusRTUCheckRxState modbus data dataSize m = Some r ->
  result r = MODBUS_RTU_SUCCESS ->
  modbusRTUCheckRxState modbus data dataSize m'
  = Some (mkCheckRx MODBUS_RTU_ERROR_CRC (mkHandle (slaveId modbus) false)
                    data).
Proof.
  intros Hm Hm' Hb Hpos Hmax Hwf Hr Hres.
  assert (Hf : isRxDataReceived modbus = true).
  { destruct (isRxDataReceived modbus) eqn:Hf; [reflexivity | ].
    rewrite (modbusRTUCheckRxState_busy _ _ _ _ Hf) in Hr.
    injection Hr as <-. discriminate Hres. }
  assert (Hs : Packet.slaveId (rxPacket m) = slaveId modbus).
  { destruct (Byte.eqb (Packet.slaveId (rxPacket m)) (slaveId modbus)) eqn:E.
    - apply Byte.byte_dec_bl, E.
    - apply Byte.eqb_false in E.
      rewrite (modbusRTUCheckRxState_wrong_slave _ _ _ _ Hf E) in Hr.
      injection Hr as <-. discriminate Hres. }
  assert (Hs' : Packet.slaveId (rxPacket m') = slaveId modbus).
  { rewrite <- Hs. unfold Packet.bytes in Hm, Hm'.
    destruct pre as [ | p0 pre0]; [cbn in Hpos; lia | ].
    cbn [app] in Hm, Hm'. congruence. }
  assert (Hwf' : Packet.wf (rxPacket m')).
  { unfold Packet.wf in *.
    apply (f_equal (@length _)) in Hm, Hm'. unfold Packet.bytes in Hm, Hm'.
    rewrite length_app in Hm, Hm'. cbn [length] in Hm, Hm'. lia. }
  destruct (modbusRTUCheckRxState_decode modbus data dataSize m
              Hf Hs Hmax Hwf) as (first & second & H1 & H2 & Hcheck).
  destruct (modbusRTUCheckRxState_decode modbus data dataSize m'
              Hf Hs' Hmax Hwf') as (first' & second' & H1' & H2' & Hcheck').
  rewrite Hcheck'. clear Hcheck'. rewrite Hcheck in Hr. clear Hcheck.
  rewrite Hm in Hr. rewrite Hm'.
  assert (Hcrc : forall x : byte,
             firstn (N.to_nat (dataSize + 2)) (pre ++ x :: post)
             = firstn (N.to_nat (dataSize + 2)) pre).
  { intros x. rewrite firstn_app.
    replace (N.to_nat (dataSize + 2) - length pre)%nat with O by lia.
    cbn [firstn]. apply app_nil_r. }
  rewrite Hcrc in *.
  unfold load in H1, H2, H1', H2'.
  change (nth_error (Packet.data (rxPacket m)) ?i)
    with (nth_error (Packet.bytes (rxPacket m)) (S (S i))) in H1, H2.
  change (nth_error (Packet.data (rxPacket m')) ?i)
    with (nth_error (Packet.bytes (rxPacket m')) (S (S i))) in H1', H2'.
  rewrite Hm in H1, H2. rewrite Hm' in H1', H2'.
  destruct (_ =? _) eqn:Ec in Hr.
  2:{ injection Hr as <-. discriminate Hres. }
  apply N.eqb_eq in Ec.
  destruct (_ =? _) eqn:Ec'; [ | reflexivity].
  apply N.eqb_eq in Ec'. exfalso. apply Hb.
  replace (N.to_nat (dataSize + 1)) with (S (N.to_nat dataSize))
    in H2, H2' by lia.
  destruct (Nat.eq_dec (length pre) (S (S (N.to_nat dataSize)))) as [Hp | Hp].
  - rewrite nth_error_app2, Hp, Nat.sub_diag in H1, H1' by lia.
    cbn in H1, H1'. injection H1 as <-. injection H1' as <-.
    rewrite nth_error_past_middle in H2, H2' by lia.
    rewrite H2 in H2'. injection H2' as <-.
    apply u8_inj. lia.
  - assert (Hp3 : length pre = S (S (S (N.to_nat dataSize)))) by lia.
    rewrite nth_error_app1 in H1, H1' by lia.
    rewrite H1 in H1'. injection H1' as <-.
    rewrite nth_error_app2, Hp3, Nat.sub_diag in H2, H2' by lia.
    cbn in H2, H2'. injection H2 as <-. injection H2' as <-.
    apply u8_inj. lia.
Qed.

Lemma modbusRTUCheckRxState_detects_changed_crc_byte_witness :
  modbusRTUCheckRxState (mkHandle x02 true) [xff; xff; xff; xff] 4
    (mkMachine Packet.zero
               (Packet.mk x02 x03
                          ([x00; x00; x00; x0a; xfe; xc4] ++ repeat x00 246))
               [] None true 0)
  = Some (mkCheckRx MODBUS_RTU_ERROR_CRC (mkHandle x02 false)
                    [xff; xff; xff; xff]).
Proof.
  apply (modbusRTUCheckRxState_detects_changed_crc_byte
           (mkHandle x02 true) [xff; xff; xff; xff] 4 slave_2_answered
           (mkMachine Packet.zero
               (Packet.mk x02 x03
                          ([x00; x00; x00; x0a; xfe; xc4] ++ repeat x00 246))
               [] None true 0)
           [x02; x03; x00; x00; x00; x0a; xfe] (repeat x00 246) xc5 xc4
           (mkCheckRx MODBUS_RTU_SUCCESS (mkHandle x02 false) read_payload)).
  - reflexivity.
  - reflexivity.
  - discriminate.
  - split; vm_compute; [discriminate | reflexivity].
  - vm_compute. discriminate.
  - reflexivity.
  - vm_compute. reflexivity.
  - reflexivity.
Defined.
